(** * Workload manifests: decoding, environment overrides, build inputs, health checks

    A shallow embedding of the [manifest] package (Go): the workload
    structs, the scalar-or-structured YAML fields, [ApplyEnv] with its
    [mergo] merge, [BuildConfig], [requiresBuild], [parsePortMapping] and the
    container health check helpers.

    Conventions.  A Go pointer [*T] used as an optional field is an
    [option T] ([None] is nil).  A Go map is an [option (gmap string V)] and a
    slice an [option (list T)], so that nil and empty stay distinct.  A Go
    function returning [(T, error)] returns a [Result T]; a method that
    mutates its receiver returns the new receiver.  Structs are values: what
    a call returns is modelled, not the writes a merge makes through the
    pointers and the maps that the result shares with the receiver. *)

From Stdlib Require Import ZArith Ascii String List Bool Lia.
From Stdlib Require PrimFloat SpecFloat FloatOps Uint63.
From stdpp Require Import base option list strings gmap.

Local Open Scope Z_scope.

(** ** Errors, results, panics *)

Inductive error : Type :=
| errUnmarshalBuildOpts
| errUnmarshalExec
| yaml_TypeError (Errors : list string)      (* *yaml.TypeError *)
| yaml_SyntaxError (msg : string)            (* any other decoder error *)
| ErrInvalidWorkloadType (Type_ : string)
| fmt_Errorf (msg : string)                  (* fmt.Errorf without %w *)
| fmt_Errorf_w (msg : string) (err : error). (* fmt.Errorf("msg: %w", err) *)

Inductive Result (A : Type) : Type :=
| Ok (a : A)
| Err (e : error).
Arguments Ok {A} a.
Arguments Err {A} e.

Definition is_Err {A} (r : Result A) : bool :=
  match r with Ok _ => false | Err _ => true end.

Inductive panic : Type := nilPointerDereference.

Inductive Outcome (A : Type) : Type :=
| Returns (a : A)
| Panics (p : panic).
Arguments Returns {A} a.
Arguments Panics {A} p.

#[global] Instance Outcome_ret : MRet Outcome := fun A a => Returns a.
#[global] Instance Outcome_bind : MBind Outcome := fun A B k m =>
  match m with Returns a => k a | Panics p => Panics p end.

(** [*p] *)
Definition deref {A} (p : option A) : Outcome A :=
  match p with Some v => Returns v | None => Panics nilPointerDereference end.

Definition IsNil {A} (p : option A) : bool :=
  match p with None => true | Some _ => false end.

(** aws.StringValue *)
Definition aws_StringValue (p : option string) : string :=
  match p with Some s => s | None => EmptyString end.

(** ** Constants *)

Definition defaultSidecarPort : string := "80".
Definition defaultFluentbitImage : string := "amazon/aws-for-fluent-bit:latest".
Definition dockerfileDefaultName : string := "Dockerfile".

(** The workload type names are declared outside the files under study; the
    command help quotes the first two. *)
Definition LoadBalancedWebServiceType : string := "Load Balanced Web Service".
Definition BackendServiceType : string := "Backend Service".
Definition ScheduledJobType : string := "Scheduled Job".
Definition WorkerServiceType : string := "Worker Service".

(** ** Strings and lexical paths (Go standard library, Unix separator) *)

Definition Separator : ascii := "/"%char.

(** strings.Split(s, sep) for a one-byte separator. *)
Fixpoint strings_Split (s : string) (sep : ascii) : list string :=
  match s with
  | EmptyString => [EmptyString]
  | String c r =>
      if Ascii.eqb c sep then EmptyString :: strings_Split r sep
      else match strings_Split r sep with
           | [] => [String c EmptyString]
           | p :: ps => String c p :: ps
           end
  end.

(** strings.Join(elems, "/") *)
Definition strings_Join_sep (elems : list string) : string :=
  String.concat (String Separator EmptyString) elems.

(** The elements that path.Clean keeps, scanning left to right; [kept] is the
    output so far, last element first. *)
Fixpoint clean_elems (rooted : bool) (kept elems : list string) : list string :=
  match elems with
  | [] => rev kept
  | e :: es =>
      if String.eqb e "" || String.eqb e "." then clean_elems rooted kept es
      else if String.eqb e ".." then
        match kept with
        | top :: below =>
            if String.eqb top ".." then clean_elems rooted (e :: kept) es
            else clean_elems rooted below es
        | [] => if rooted then clean_elems rooted [] es
                else clean_elems rooted [e] es
        end
      else clean_elems rooted (e :: kept) es
  end.

(** filepath.Clean *)
Definition filepath_Clean (path : string) : string :=
  let rooted := match path with String c _ => Ascii.eqb c Separator | EmptyString => false end in
  let body := strings_Join_sep (clean_elems rooted [] (strings_Split path Separator)) in
  let out := if rooted then String Separator body else body in
  if String.eqb out "" then "."%string else out.

(** filepath.Join: the elements from the first non-empty one on, joined and cleaned. *)
Fixpoint filepath_Join (elem : list string) : string :=
  match elem with
  | [] => EmptyString
  | e :: rest =>
      if String.eqb e "" then filepath_Join rest
      else filepath_Clean (strings_Join_sep elem)
  end.

(** filepath.Dir: everything up to and including the last separator, cleaned. *)
Definition filepath_Dir (path : string) : string :=
  let elems := strings_Split path Separator in
  let dir := match removelast elems with
             | [] => EmptyString
             | init => (strings_Join_sep init +:+ String Separator EmptyString)%string
             end in
  filepath_Clean dir.

(** ** Container image *)

(** DockerBuildArgs: the options under the "build" field. *)
Record DockerBuildArgs : Type := {
  DockerBuildArgs_Context : option string;
  DockerBuildArgs_Dockerfile : option string;
  DockerBuildArgs_Args : option (gmap string string);
  DockerBuildArgs_Target : option string;
  DockerBuildArgs_CacheFrom : option (list string)
}.

Definition DockerBuildArgs_isEmpty (b : DockerBuildArgs) : bool :=
  IsNil (DockerBuildArgs_Context b) && IsNil (DockerBuildArgs_Dockerfile b)
  && IsNil (DockerBuildArgs_Args b) && IsNil (DockerBuildArgs_Target b)
  && IsNil (DockerBuildArgs_CacheFrom b).

Record BuildArgsOrString : Type := {
  BuildString : option string;
  BuildArgs : DockerBuildArgs
}.

Definition BuildArgsOrString_isEmpty (b : BuildArgsOrString) : bool :=
  String.eqb (aws_StringValue (BuildString b)) "" && DockerBuildArgs_isEmpty (BuildArgs b).

Record Image : Type := {
  Image_Build : BuildArgsOrString;
  Image_Location : option string;
  Image_DockerLabels : option (gmap string string);
  Image_DependsOn : option (gmap string string)
}.

Definition Image_GetLocation (i : Image) : string := aws_StringValue (Image_Location i).

Definition Image_dockerfile (i : Image) : string :=
  match DockerBuildArgs_Dockerfile (BuildArgs (Image_Build i)) with
  | Some df => df
  | None =>
      let dfPath := EmptyString in
      let dfPath := match BuildString (Image_Build i) with
                    | Some s => s
                    | None => dfPath
                    end in
      dfPath
  end.

Definition Image_context (i : Image) : string :=
  aws_StringValue (DockerBuildArgs_Context (BuildArgs (Image_Build i))).

Definition Image_args (i : Image) : option (gmap string string) :=
  DockerBuildArgs_Args (BuildArgs (Image_Build i)).

Definition Image_target (i : Image) : option string :=
  DockerBuildArgs_Target (BuildArgs (Image_Build i)).

Definition Image_cacheFrom (i : Image) : option (list string) :=
  DockerBuildArgs_CacheFrom (BuildArgs (Image_Build i)).

(** Image.BuildConfig: three guarded assignments over the two defaults. *)
Definition Image_BuildConfig (i : Image) (rootDirectory : string) : DockerBuildArgs :=
  let df := Image_dockerfile i in
  let ctx := Image_context i in
  let dockerfile := Some (filepath_Join [rootDirectory; dockerfileDefaultName]) in
  let context := Some rootDirectory in
  let '(dockerfile, context) :=
    if negb (String.eqb df "") && negb (String.eqb ctx "")
    then (Some (filepath_Join [rootDirectory; df]), Some (filepath_Join [rootDirectory; ctx]))
    else (dockerfile, context) in
  let '(dockerfile, context) :=
    if negb (String.eqb df "") && String.eqb ctx ""
    then (Some (filepath_Join [rootDirectory; df]),
          Some (filepath_Join [rootDirectory; filepath_Dir df]))
    else (dockerfile, context) in
  let '(dockerfile, context) :=
    if String.eqb df "" && negb (String.eqb ctx "")
    then (Some (filepath_Join [rootDirectory; ctx; dockerfileDefaultName]),
          Some (filepath_Join [rootDirectory; ctx]))
    else (dockerfile, context) in
  {| DockerBuildArgs_Dockerfile := dockerfile;
     DockerBuildArgs_Context := context;
     DockerBuildArgs_Args := Image_args i;
     DockerBuildArgs_Target := Image_target i;
     DockerBuildArgs_CacheFrom := Image_cacheFrom i |}.

Definition dquote : string := String (ascii_of_nat 34) EmptyString.

Definition errImageSource : error :=
  fmt_Errorf ("either " +:+ dquote +:+ "image.build" +:+ dquote +:+ " or " +:+ dquote
              +:+ "image.location" +:+ dquote +:+ " needs to be specified in the manifest").

Definition requiresBuild (image : Image) : Result bool :=
  let noBuild := BuildArgsOrString_isEmpty (Image_Build image) in
  let noURL := IsNil (Image_Location image) in
  if Bool.eqb noBuild noURL then Err errImageSource
  else if IsNil (Image_Location image) then Ok true
  else Ok false.

(** ** Sidecar port mapping *)

Definition parsePortMapping (s : option string) : Result (option string * option string) :=
  match s with
  | None => Ok (Some defaultSidecarPort, None)
  | Some str =>
      let portProtocol := strings_Split str Separator in
      match length portProtocol with
      | 1%nat => Ok (Some (nth 0 portProtocol EmptyString), None)
      | 2%nat => Ok (Some (nth 0 portProtocol EmptyString),
                     Some (nth 1 portProtocol EmptyString))
      | _ => Err (fmt_Errorf ("cannot parse port mapping from " +:+ str))
      end
  end.

(** ** Container health check *)

(** time.Duration: a count of nanoseconds. *)
Definition Duration : Type := Z.
Definition time_Second : Duration := 1000000000.

Record ContainerHealthCheck : Type := {
  HealthCheck_Command : option (list string);
  HealthCheck_Interval : option Duration;
  HealthCheck_Retries : option Z;
  HealthCheck_Timeout : option Duration;
  HealthCheck_StartPeriod : option Duration
}.

Definition set_Command (v : option (list string)) (hc : ContainerHealthCheck) :=
  {| HealthCheck_Command := v;
     HealthCheck_Interval := HealthCheck_Interval hc;
     HealthCheck_Retries := HealthCheck_Retries hc;
     HealthCheck_Timeout := HealthCheck_Timeout hc;
     HealthCheck_StartPeriod := HealthCheck_StartPeriod hc |}.

Definition set_Interval (v : option Duration) (hc : ContainerHealthCheck) :=
  {| HealthCheck_Command := HealthCheck_Command hc;
     HealthCheck_Interval := v;
     HealthCheck_Retries := HealthCheck_Retries hc;
     HealthCheck_Timeout := HealthCheck_Timeout hc;
     HealthCheck_StartPeriod := HealthCheck_StartPeriod hc |}.

Definition set_Retries (v : option Z) (hc : ContainerHealthCheck) :=
  {| HealthCheck_Command := HealthCheck_Command hc;
     HealthCheck_Interval := HealthCheck_Interval hc;
     HealthCheck_Retries := v;
     HealthCheck_Timeout := HealthCheck_Timeout hc;
     HealthCheck_StartPeriod := HealthCheck_StartPeriod hc |}.

Definition set_Timeout (v : option Duration) (hc : ContainerHealthCheck) :=
  {| HealthCheck_Command := HealthCheck_Command hc;
     HealthCheck_Interval := HealthCheck_Interval hc;
     HealthCheck_Retries := HealthCheck_Retries hc;
     HealthCheck_Timeout := v;
     HealthCheck_StartPeriod := HealthCheck_StartPeriod hc |}.

Definition set_StartPeriod (v : option Duration) (hc : ContainerHealthCheck) :=
  {| HealthCheck_Command := HealthCheck_Command hc;
     HealthCheck_Interval := HealthCheck_Interval hc;
     HealthCheck_Retries := HealthCheck_Retries hc;
     HealthCheck_Timeout := HealthCheck_Timeout hc;
     HealthCheck_StartPeriod := v |}.

Definition newDefaultContainerHealthCheck : ContainerHealthCheck :=
  {| HealthCheck_Command := Some ["CMD-SHELL"; "curl -f http://localhost/ || exit 1"]%string;
     HealthCheck_Interval := Some (10 * time_Second);
     HealthCheck_Retries := Some 2;
     HealthCheck_Timeout := Some (5 * time_Second);
     HealthCheck_StartPeriod := Some (0 * time_Second) |}.

(** apply overrides the healthcheck's fields if other has them set. *)
Definition ContainerHealthCheck_apply (hc other : ContainerHealthCheck) : ContainerHealthCheck :=
  let hc := if negb (IsNil (HealthCheck_Command other))
            then set_Command (HealthCheck_Command other) hc else hc in
  let hc := if negb (IsNil (HealthCheck_Interval other))
            then set_Interval (HealthCheck_Interval other) hc else hc in
  let hc := if negb (IsNil (HealthCheck_Retries other))
            then set_Retries (HealthCheck_Retries other) hc else hc in
  let hc := if negb (IsNil (HealthCheck_Timeout other))
            then set_Timeout (HealthCheck_Timeout other) hc else hc in
  let hc := if negb (IsNil (HealthCheck_StartPeriod other))
            then set_StartPeriod (HealthCheck_StartPeriod other) hc else hc in
  hc.

(** applyIfNotSet changes the healthcheck's fields only if they were not set
    and the other healthcheck has them set. *)
Definition ContainerHealthCheck_applyIfNotSet (hc other : ContainerHealthCheck)
  : ContainerHealthCheck :=
  let hc := if IsNil (HealthCheck_Command hc) && negb (IsNil (HealthCheck_Command other))
            then set_Command (HealthCheck_Command other) hc else hc in
  let hc := if IsNil (HealthCheck_Interval hc) && negb (IsNil (HealthCheck_Interval other))
            then set_Interval (HealthCheck_Interval other) hc else hc in
  let hc := if IsNil (HealthCheck_Retries hc) && negb (IsNil (HealthCheck_Retries other))
            then set_Retries (HealthCheck_Retries other) hc else hc in
  let hc := if IsNil (HealthCheck_Timeout hc) && negb (IsNil (HealthCheck_Timeout other))
            then set_Timeout (HealthCheck_Timeout other) hc else hc in
  let hc := if IsNil (HealthCheck_StartPeriod hc) && negb (IsNil (HealthCheck_StartPeriod other))
            then set_StartPeriod (HealthCheck_StartPeriod other) hc else hc in
  hc.

(** ImageWithPort; the backend service embeds it under the name
    ServiceImageWithPort and reads [Image] and [Port] from it. *)
Record ImageWithPort : Type := {
  ImageWithPort_Image : Image;
  ImageWithPort_Port : option Z       (* *uint16 *)
}.

Record ImageWithHealthcheck : Type := {
  ImageWithHealthcheck_Image : Image;
  ImageWithHealthcheck_HealthCheck : option ContainerHealthCheck
}.

Record imageWithPortAndHealthcheck : Type := {
  ServiceImageWithPort : ImageWithPort;
  ImageConfig_HealthCheck : option ContainerHealthCheck
}.

(** ecs.HealthCheck of the AWS SDK. *)
Record ecs_HealthCheck : Type := {
  ecs_Command : option (list (option string));
  ecs_Interval : option Z;
  ecs_Retries : option Z;
  ecs_StartPeriod : option Z;
  ecs_Timeout : option Z
}.

(** aws.StringSlice: a fresh slice of pointers to the elements. *)
Definition aws_StringSlice (src : option (list string)) : option (list (option string)) :=
  Some (map Some (match src with Some l => l | None => [] end)).

Section HealthCheckOpts.

(** [int64(d.Seconds())]: the time package computes the seconds in
    float64; the conversion is kept abstract. *)
Variable int64_Seconds : Duration -> Z.

(** HealthCheckOpts dereferences Interval, Retries, StartPeriod and Timeout
    while it builds the result. *)
Definition HealthCheckOpts (i : imageWithPortAndHealthcheck)
  : Outcome (option ecs_HealthCheck) :=
  match ImageConfig_HealthCheck i with
  | None => Returns None
  | Some hc =>
      interval ← deref (HealthCheck_Interval hc);
      retries ← deref (HealthCheck_Retries hc);
      startPeriod ← deref (HealthCheck_StartPeriod hc);
      timeout ← deref (HealthCheck_Timeout hc);
      mret (Some {| ecs_Command := aws_StringSlice (HealthCheck_Command hc);
                    ecs_Interval := Some (int64_Seconds interval);
                    ecs_Retries := Some retries;
                    ecs_StartPeriod := Some (int64_Seconds startPeriod);
                    ecs_Timeout := Some (int64_Seconds timeout) |})
  end.

End HealthCheckOpts.

(** ** Scalar-or-structured fields *)

Record ExecuteCommandConfig : Type := {
  ExecuteCommandConfig_Enable : option bool
}.

Definition ExecuteCommandConfig_IsEmpty (e : ExecuteCommandConfig) : bool :=
  IsNil (ExecuteCommandConfig_Enable e).

Record ExecuteCommand : Type := {
  ExecuteCommand_Enable : option bool;
  ExecuteCommand_Config : ExecuteCommandConfig
}.

(** The [unmarshal] callback the YAML decoder hands to UnmarshalYAML.  It
    decodes the current node into the target it is given and reports an
    error; a failed decode may still have written part of the target.  One
    field per target type the manifest passes to it. *)
Record unmarshalFunc : Type := {
  unmarshal_DockerBuildArgs : DockerBuildArgs -> DockerBuildArgs * option error;
  unmarshal_string : option string -> option string * option error;
  unmarshal_ExecuteCommandConfig : ExecuteCommandConfig -> ExecuteCommandConfig * option error;
  unmarshal_bool : option bool -> option bool * option error
}.

(** [switch err.(type) { case *yaml.TypeError: break; default: return err }] *)
Definition returned_unless_TypeError (err : option error) : option error :=
  match err with
  | Some (yaml_TypeError _) => None
  | Some e => Some e
  | None => None
  end.

Definition BuildArgsOrString_UnmarshalYAML (b : BuildArgsOrString) (unmarshal : unmarshalFunc)
  : BuildArgsOrString * option error :=
  let '(args, err) := unmarshal_DockerBuildArgs unmarshal (BuildArgs b) in
  let b := {| BuildString := BuildString b; BuildArgs := args |} in
  match returned_unless_TypeError err with
  | Some e => (b, Some e)
  | None =>
      if negb (DockerBuildArgs_isEmpty (BuildArgs b)) then
        (* Unmarshaled successfully to b.BuildArgs, unset b.BuildString, and return. *)
        ({| BuildString := None; BuildArgs := BuildArgs b |}, None)
      else
        let '(str, err) := unmarshal_string unmarshal (BuildString b) in
        let b := {| BuildString := str; BuildArgs := BuildArgs b |} in
        match err with
        | Some _ => (b, Some errUnmarshalBuildOpts)
        | None => (b, None)
        end
  end.

Definition ExecuteCommand_UnmarshalYAML (e : ExecuteCommand) (unmarshal : unmarshalFunc)
  : ExecuteCommand * option error :=
  let '(config, err) := unmarshal_ExecuteCommandConfig unmarshal (ExecuteCommand_Config e) in
  let e := {| ExecuteCommand_Enable := ExecuteCommand_Enable e; ExecuteCommand_Config := config |} in
  match returned_unless_TypeError err with
  | Some err => (e, Some err)
  | None =>
      if negb (ExecuteCommandConfig_IsEmpty (ExecuteCommand_Config e)) then (e, None)
      else
        let '(enable, err) := unmarshal_bool unmarshal (ExecuteCommand_Enable e) in
        let e := {| ExecuteCommand_Enable := enable;
                    ExecuteCommand_Config := ExecuteCommand_Config e |} in
        match err with
        | Some _ => (e, Some errUnmarshalExec)
        | None => (e, None)
        end
  end.

(** ** The merge library

    [mergo.Merge(&dst, src, opts...)] walks both values by reflection and
    assigns to [dst].  The library is not part of the package; the functions
    below are its cases by kind, as the manifest relies on them: a nil source
    pointer leaves the destination alone, pointers that are both set are
    merged element by element, map entries are added or replaced key by key,
    scalars and slices are assigned under the two options.  The result is the
    value [dst] holds afterwards. *)
Module mergo.

Record Config : Type := {
  Overwrite : bool;                 (* WithOverride *)
  overwriteWithEmptyValue : bool    (* WithOverwriteWithEmptyValue *)
}.

(** Strings, integers, booleans. *)
Definition basic {A} (isEmptyValue : A -> bool) (c : Config) (dst src : A) : A :=
  if (negb (isEmptyValue src) || overwriteWithEmptyValue c)
     && (Overwrite c || isEmptyValue dst)
  then src else dst.

(** Pointers. *)
Definition ptr {A} (elem : A -> A -> A) (dst src : option A) : option A :=
  match src with
  | None => dst
  | Some s =>
      match dst with
      | None => Some s
      | Some d => Some (elem d s)
      end
  end.

Definition isEmptySlice {A} (v : option (list A)) : bool :=
  match v with Some (_ :: _) => false | _ => true end.

(** Slices (no AppendSlice). *)
Definition slice {A} (c : Config) (dst src : option (list A)) : option (list A) :=
  if (negb (isEmptySlice src) || overwriteWithEmptyValue c)
     && (Overwrite c || isEmptySlice dst)
  then src else dst.

(** Maps with string values: every source key is written unless the
    destination holds a non-empty value and [Overwrite] is off. *)
Definition map (c : Config) (dst src : option (gmap string string))
  : option (gmap string string) :=
  match src with
  | None => dst
  | Some sm =>
      let dm := match dst with Some dm => dm | None => ∅ end in
      Some (union_with
              (fun d s => Some (if Overwrite c || String.eqb d "" then s else d)) dm sm)
  end.

(** Maps with pointer values, when overwriting.  An entry present on both
    sides is merged by [elem] through the destination's pointer, and the key
    is then set to the source's element, as every key of the source is: the
    map ends with the source's pointer, nil included, and the merged pointee
    is no longer the map's. *)
Definition mapPtr {A} (elem : A -> A -> A) (dst src : option (gmap string (option A)))
  : option (gmap string (option A)) :=
  match src with
  | None => dst
  | Some sm =>
      let dm := match dst with Some dm => dm | None => ∅ end in
      Some (union_with (fun _ s => Some s) dm sm)
  end.

End mergo.

(** The options every [ApplyEnv] passes. *)
Definition WithOverride_WithOverwriteWithEmptyValue : mergo.Config :=
  {| mergo.Overwrite := true; mergo.overwriteWithEmptyValue := true |}.

Definition deepMerge_string (c : mergo.Config) : string -> string -> string :=
  mergo.basic (fun s => String.eqb s "") c.
Definition deepMerge_int (c : mergo.Config) : Z -> Z -> Z :=
  mergo.basic (fun n => Z.eqb n 0) c.
Definition deepMerge_bool (c : mergo.Config) : bool -> bool -> bool :=
  mergo.basic negb c.

#[global] Instance Result_ret : MRet Result := fun A a => Ok a.
#[global] Instance Result_bind : MBind Result := fun A B k m =>
  match m with Ok a => k a | Err e => Err e end.

(** ** Task sizing, logging, sidecars, network *)

(** Modelled from the spec: the declaration of the autoscaling policy is
    outside the files under study; the count is a "union: fixed replica
    integer vs. autoscaling policy" whose empty sentinel has "no sub-fields
    set".  Each sub-field is optional. *)
Record Autoscaling : Type := {
  Autoscaling_Range : option string;
  Autoscaling_CPU : option Z;
  Autoscaling_Memory : option Z;
  Autoscaling_Requests : option Z;
  Autoscaling_ResponseTime : option Duration
}.

Definition Autoscaling_IsEmpty (a : Autoscaling) : bool :=
  IsNil (Autoscaling_Range a) && IsNil (Autoscaling_CPU a) && IsNil (Autoscaling_Memory a)
  && IsNil (Autoscaling_Requests a) && IsNil (Autoscaling_ResponseTime a).

(** Count: [Value] is what the constructors set, [Autoscaling] what the stack
    package reads. *)
Record Count : Type := {
  Count_Value : option Z;
  Count_Autoscaling : Autoscaling
}.

(** Modelled from the spec: Count.IsEmpty is declared outside the files under
    study; the "empty sentinel (no sub-fields set)". *)
Definition Count_IsEmpty (c : Count) : bool :=
  IsNil (Count_Value c) && Autoscaling_IsEmpty (Count_Autoscaling c).

(** TaskConfig.  [ExecuteCommand] is the field the constructors and the stack
    package use. *)
Record TaskConfig : Type := {
  TaskConfig_CPU : option Z;
  TaskConfig_Memory : option Z;
  TaskConfig_Count : Count;
  TaskConfig_Variables : option (gmap string string);
  TaskConfig_Secrets : option (gmap string string);
  TaskConfig_ExecuteCommand : ExecuteCommand
}.

Definition TaskConfig_set_Count (v : Count) (t : TaskConfig) : TaskConfig :=
  {| TaskConfig_CPU := TaskConfig_CPU t;
     TaskConfig_Memory := TaskConfig_Memory t;
     TaskConfig_Count := v;
     TaskConfig_Variables := TaskConfig_Variables t;
     TaskConfig_Secrets := TaskConfig_Secrets t;
     TaskConfig_ExecuteCommand := TaskConfig_ExecuteCommand t |}.

Record Logging : Type := {
  Logging_Image : option string;
  Logging_Destination : option (gmap string string);
  Logging_EnableMetadata : option bool;
  Logging_SecretOptions : option (gmap string string);
  Logging_ConfigFile : option string
}.

Definition Logging_image (lc : Logging) : option string :=
  if IsNil (Logging_Image lc) then Some defaultFluentbitImage else Logging_Image lc.

Definition Logging_enableMetadata (lc : Logging) : option string :=
  match Logging_EnableMetadata lc with
  | None => Some "true"%string
  | Some b => Some (if b then "true" else "false")%string
  end.

Record SidecarConfig : Type := {
  SidecarConfig_Port : option string;
  SidecarConfig_Image : option string;
  SidecarConfig_CredsParam : option string
}.

(** Modelled from the spec: vpcConfig is declared outside the files under
    study; the network has a "subnet placement enum, defaults to public",
    which the constructors set through [Placement]. *)
Record vpcConfig : Type := {
  vpcConfig_Placement : option string
}.

Definition PublicSubnetPlacement : string := "public".

Record NetworkConfig : Type := {
  NetworkConfig_VPC : option vpcConfig
}.

Record TopicSubscription : Type := {
  TopicSubscription_Name : string;
  TopicSubscription_Service : string
}.

Record SubscribeConfig : Type := {
  SubscribeConfig_Topics : option (option (list TopicSubscription))   (* *[]TopicSubscription *)
}.

Record Workload : Type := {
  Workload_Name : option string;
  Workload_Type : option string
}.

Definition stringP (s : string) : option string :=
  if String.eqb s "" then None else Some s.

Definition uint16P (n : Z) : option Z :=
  if Z.eqb n 0 then None else Some n.

(** ** The reflective walk of [mergo.Merge] over the manifest structs *)

Section deepMerge.

Variable c : mergo.Config.

Definition deepMerge_DockerBuildArgs (dst src : DockerBuildArgs) : DockerBuildArgs :=
  {| DockerBuildArgs_Context :=
       mergo.ptr (deepMerge_string c) (DockerBuildArgs_Context dst) (DockerBuildArgs_Context src);
     DockerBuildArgs_Dockerfile :=
       mergo.ptr (deepMerge_string c) (DockerBuildArgs_Dockerfile dst)
                 (DockerBuildArgs_Dockerfile src);
     DockerBuildArgs_Args :=
       mergo.map c (DockerBuildArgs_Args dst) (DockerBuildArgs_Args src);
     DockerBuildArgs_Target :=
       mergo.ptr (deepMerge_string c) (DockerBuildArgs_Target dst) (DockerBuildArgs_Target src);
     DockerBuildArgs_CacheFrom :=
       mergo.slice c (DockerBuildArgs_CacheFrom dst) (DockerBuildArgs_CacheFrom src) |}.

Definition deepMerge_BuildArgsOrString (dst src : BuildArgsOrString) : BuildArgsOrString :=
  {| BuildString := mergo.ptr (deepMerge_string c) (BuildString dst) (BuildString src);
     BuildArgs := deepMerge_DockerBuildArgs (BuildArgs dst) (BuildArgs src) |}.

(** Image without a transformer. *)
Definition deepMerge_Image (dst src : Image) : Image :=
  {| Image_Build := deepMerge_BuildArgsOrString (Image_Build dst) (Image_Build src);
     Image_Location :=
       mergo.ptr (deepMerge_string c) (Image_Location dst) (Image_Location src);
     Image_DockerLabels := mergo.map c (Image_DockerLabels dst) (Image_DockerLabels src);
     Image_DependsOn := mergo.map c (Image_DependsOn dst) (Image_DependsOn src) |}.

Definition deepMerge_ContainerHealthCheck (dst src : ContainerHealthCheck)
  : ContainerHealthCheck :=
  {| HealthCheck_Command :=
       mergo.slice c (HealthCheck_Command dst) (HealthCheck_Command src);
     HealthCheck_Interval :=
       mergo.ptr (deepMerge_int c) (HealthCheck_Interval dst) (HealthCheck_Interval src);
     HealthCheck_Retries :=
       mergo.ptr (deepMerge_int c) (HealthCheck_Retries dst) (HealthCheck_Retries src);
     HealthCheck_Timeout :=
       mergo.ptr (deepMerge_int c) (HealthCheck_Timeout dst) (HealthCheck_Timeout src);
     HealthCheck_StartPeriod :=
       mergo.ptr (deepMerge_int c) (HealthCheck_StartPeriod dst)
                 (HealthCheck_StartPeriod src) |}.

Definition deepMerge_Autoscaling (dst src : Autoscaling) : Autoscaling :=
  {| Autoscaling_Range :=
       mergo.ptr (deepMerge_string c) (Autoscaling_Range dst) (Autoscaling_Range src);
     Autoscaling_CPU :=
       mergo.ptr (deepMerge_int c) (Autoscaling_CPU dst) (Autoscaling_CPU src);
     Autoscaling_Memory :=
       mergo.ptr (deepMerge_int c) (Autoscaling_Memory dst) (Autoscaling_Memory src);
     Autoscaling_Requests :=
       mergo.ptr (deepMerge_int c) (Autoscaling_Requests dst) (Autoscaling_Requests src);
     Autoscaling_ResponseTime :=
       mergo.ptr (deepMerge_int c) (Autoscaling_ResponseTime dst)
                 (Autoscaling_ResponseTime src) |}.

Definition deepMerge_Count (dst src : Count) : Count :=
  {| Count_Value := mergo.ptr (deepMerge_int c) (Count_Value dst) (Count_Value src);
     Count_Autoscaling :=
       deepMerge_Autoscaling (Count_Autoscaling dst) (Count_Autoscaling src) |}.

Definition deepMerge_ExecuteCommand (dst src : ExecuteCommand) : ExecuteCommand :=
  {| ExecuteCommand_Enable :=
       mergo.ptr (deepMerge_bool c) (ExecuteCommand_Enable dst) (ExecuteCommand_Enable src);
     ExecuteCommand_Config :=
       {| ExecuteCommandConfig_Enable :=
            mergo.ptr (deepMerge_bool c)
                      (ExecuteCommandConfig_Enable (ExecuteCommand_Config dst))
                      (ExecuteCommandConfig_Enable (ExecuteCommand_Config src)) |} |}.

Definition deepMerge_TaskConfig (dst src : TaskConfig) : TaskConfig :=
  {| TaskConfig_CPU := mergo.ptr (deepMerge_int c) (TaskConfig_CPU dst) (TaskConfig_CPU src);
     TaskConfig_Memory :=
       mergo.ptr (deepMerge_int c) (TaskConfig_Memory dst) (TaskConfig_Memory src);
     TaskConfig_Count := deepMerge_Count (TaskConfig_Count dst) (TaskConfig_Count src);
     TaskConfig_Variables :=
       mergo.map c (TaskConfig_Variables dst) (TaskConfig_Variables src);
     TaskConfig_Secrets := mergo.map c (TaskConfig_Secrets dst) (TaskConfig_Secrets src);
     TaskConfig_ExecuteCommand :=
       deepMerge_ExecuteCommand (TaskConfig_ExecuteCommand dst)
                                (TaskConfig_ExecuteCommand src) |}.

Definition deepMerge_Logging (dst src : Logging) : Logging :=
  {| Logging_Image := mergo.ptr (deepMerge_string c) (Logging_Image dst) (Logging_Image src);
     Logging_Destination :=
       mergo.map c (Logging_Destination dst) (Logging_Destination src);
     Logging_EnableMetadata :=
       mergo.ptr (deepMerge_bool c) (Logging_EnableMetadata dst) (Logging_EnableMetadata src);
     Logging_SecretOptions :=
       mergo.map c (Logging_SecretOptions dst) (Logging_SecretOptions src);
     Logging_ConfigFile :=
       mergo.ptr (deepMerge_string c) (Logging_ConfigFile dst) (Logging_ConfigFile src) |}.

Definition deepMerge_SidecarConfig (dst src : SidecarConfig) : SidecarConfig :=
  {| SidecarConfig_Port :=
       mergo.ptr (deepMerge_string c) (SidecarConfig_Port dst) (SidecarConfig_Port src);
     SidecarConfig_Image :=
       mergo.ptr (deepMerge_string c) (SidecarConfig_Image dst) (SidecarConfig_Image src);
     SidecarConfig_CredsParam :=
       mergo.ptr (deepMerge_string c) (SidecarConfig_CredsParam dst)
                 (SidecarConfig_CredsParam src) |}.

Definition deepMerge_NetworkConfig (dst src : NetworkConfig) : NetworkConfig :=
  {| NetworkConfig_VPC :=
       mergo.ptr (fun d s =>
                    {| vpcConfig_Placement :=
                         mergo.ptr (deepMerge_string c) (vpcConfig_Placement d)
                                   (vpcConfig_Placement s) |})
                 (NetworkConfig_VPC dst) (NetworkConfig_VPC src) |}.

Definition deepMerge_SubscribeConfig (dst src : SubscribeConfig) : SubscribeConfig :=
  {| SubscribeConfig_Topics :=
       mergo.ptr (mergo.slice c) (SubscribeConfig_Topics dst) (SubscribeConfig_Topics src) |}.

Definition deepMerge_Workload (dst src : Workload) : Workload :=
  {| Workload_Name := mergo.ptr (deepMerge_string c) (Workload_Name dst) (Workload_Name src);
     Workload_Type := mergo.ptr (deepMerge_string c) (Workload_Type dst) (Workload_Type src) |}.

End deepMerge.

(** ** The image transformer *)

(** reflect.Value.IsZero on the [Build] field: every field is nil. *)
Definition BuildArgsOrString_IsZero (b : BuildArgsOrString) : bool :=
  IsNil (BuildString b) && DockerBuildArgs_isEmpty (BuildArgs b).

(** [mergo.Merge(&dstImage, srcImage, opts...)] on two images. *)
Definition mergo_Merge_Image (dstImage srcImage : Image) (c : mergo.Config) : Result Image :=
  Ok (deepMerge_Image c dstImage srcImage).

(** What a write through a copy leaves in the original: the copy shares its
    maps and pointers with the original, so a map or pointer that was not nil
    shows what the merge wrote through it, while a nil one stays nil. *)
Definition shared {A} (original copy : option A) : option A :=
  match original with Some _ => copy | None => None end.

(** [dst] after the default merge ran on the copy [dstImage]. *)
Definition seen_through_copy (dst dstImage : Image) : Image :=
  {| Image_Build :=
       {| BuildString := shared (BuildString (Image_Build dst)) (BuildString (Image_Build dstImage));
          BuildArgs :=
            let d := BuildArgs (Image_Build dst) in
            let m := BuildArgs (Image_Build dstImage) in
            {| DockerBuildArgs_Context :=
                 shared (DockerBuildArgs_Context d) (DockerBuildArgs_Context m);
               DockerBuildArgs_Dockerfile :=
                 shared (DockerBuildArgs_Dockerfile d) (DockerBuildArgs_Dockerfile m);
               DockerBuildArgs_Args := shared (DockerBuildArgs_Args d) (DockerBuildArgs_Args m);
               DockerBuildArgs_Target :=
                 shared (DockerBuildArgs_Target d) (DockerBuildArgs_Target m);
               DockerBuildArgs_CacheFrom := DockerBuildArgs_CacheFrom d |} |};
     Image_Location := shared (Image_Location dst) (Image_Location dstImage);
     Image_DockerLabels := shared (Image_DockerLabels dst) (Image_DockerLabels dstImage);
     Image_DependsOn := shared (Image_DependsOn dst) (Image_DependsOn dstImage) |}.

(** transformImage: the default merge on a copy, then [Build] and [Location]
    are both set from the source when the source sets either. *)
Definition transformImage (dst src : Image) : Result Image :=
  (* Perform default merge *)
  match mergo_Merge_Image dst src WithOverride_WithOverwriteWithEmptyValue with
  | Err err => Err err
  | Ok dstImage =>
      let dst := seen_through_copy dst dstImage in
      (* Perform customized merge *)
      let srcBuild := Image_Build src in
      let srcLocation := Image_Location src in
      if negb (BuildArgsOrString_IsZero srcBuild) || negb (IsNil srcLocation) then
        Ok {| Image_Build := srcBuild;
              Image_Location := srcLocation;
              Image_DockerLabels := Image_DockerLabels dst;
              Image_DependsOn := Image_DependsOn dst |}
      else Ok dst
  end.

(** The types a transformer is asked about on the walk. *)
Inductive reflect_Type : Type :=
| TypeOf_Image
| TypeOf_other.

(** mergo.Transformers *)
Definition Transformers : Type := reflect_Type -> option (Image -> Image -> Result Image).

Definition workloadTransformer : Transformers := fun typ =>
  match typ with
  | TypeOf_Image => Some transformImage
  | TypeOf_other => None
  end.

(** The walk at a value of type Image: a transformer, when the options carry
    one for the type, replaces the default merge. *)
Definition deepMerge_Image_with (c : mergo.Config) (t : option Transformers) (dst src : Image)
  : Result Image :=
  match t with
  | Some transformers =>
      match transformers TypeOf_Image with
      | Some fn => fn dst src
      | None => Ok (deepMerge_Image c dst src)
      end
  | None => Ok (deepMerge_Image c dst src)
  end.

(** Maps with pointer values whose element merge can fail: the error of an
    element merge is returned, its result is not the map's entry. *)
Definition mergo_mapPtr_with {A} (elem : A -> A -> Result A)
    (dst src : option (gmap string (option A))) : Result (option (gmap string (option A))) :=
  match src with
  | None => Ok dst
  | Some sm =>
      let dm := match dst with Some dm => dm | None => ∅ end in
      m ← map_fold (fun k s (acc : Result (gmap string (option A))) =>
                      m ← acc;
                      match m !! k, s with
                      | Some (Some d), Some s' => _ ← elem d s'; Ok (<[k := s]> m)
                      | _, _ => Ok (<[k := s]> m)
                      end) (Ok dm) sm;
      Ok (Some m)
  end.

(** ** Backend and worker services *)

Section Manifest.

(** Declared outside the files under study: the entrypoint and command
    overrides with the way the merge walks them, and the template parser
    behind the [parser] field. *)
Context {ImageOverride template_Parser : Type}.
Variable ImageOverride_zero : ImageOverride.
Variable deepMerge_ImageOverride :
  mergo.Config -> ImageOverride -> ImageOverride -> ImageOverride.

Record BackendServiceConfig : Type := {
  BackendServiceConfig_ImageConfig : imageWithPortAndHealthcheck;
  BackendServiceConfig_ImageOverride : ImageOverride;
  BackendServiceConfig_TaskConfig : TaskConfig;
  BackendServiceConfig_Logging : option Logging;
  BackendServiceConfig_Sidecars : option (gmap string (option SidecarConfig));
  BackendServiceConfig_Network : NetworkConfig
}.

Record BackendService : Type := {
  BackendService_Workload : Workload;
  BackendService_Config : BackendServiceConfig;
  BackendService_Environments : option (gmap string (option BackendServiceConfig));
  BackendService_parser : option template_Parser
}.

Record WorkerServiceConfig : Type := {
  WorkerServiceConfig_ImageConfig : ImageWithHealthcheck;
  WorkerServiceConfig_ImageOverride : ImageOverride;
  WorkerServiceConfig_TaskConfig : TaskConfig;
  WorkerServiceConfig_Logging : option Logging;
  WorkerServiceConfig_Sidecars : option (gmap string (option SidecarConfig));
  WorkerServiceConfig_Subscribe : option SubscribeConfig;
  WorkerServiceConfig_Network : option NetworkConfig
}.

Record WorkerService : Type := {
  WorkerService_Workload : Workload;
  WorkerService_Config : WorkerServiceConfig;
  WorkerService_Environments : option (gmap string (option WorkerServiceConfig));
  WorkerService_parser : option template_Parser
}.

Definition BackendService_Image (s : BackendService) : Image :=
  ImageWithPort_Image (ServiceImageWithPort (BackendServiceConfig_ImageConfig (BackendService_Config s))).

Definition WorkerService_Image (s : WorkerService) : Image :=
  ImageWithHealthcheck_Image (WorkerServiceConfig_ImageConfig (WorkerService_Config s)).

Definition BackendService_Count (s : BackendService) : Count :=
  TaskConfig_Count (BackendServiceConfig_TaskConfig (BackendService_Config s)).

Definition WorkerService_Count (s : WorkerService) : Count :=
  TaskConfig_Count (WorkerServiceConfig_TaskConfig (WorkerService_Config s)).

(** [s.TaskConfig.Count = v] *)
Definition BackendService_set_Count (v : Count) (s : BackendService) : BackendService :=
  let cfg := BackendService_Config s in
  {| BackendService_Workload := BackendService_Workload s;
     BackendService_Config :=
       {| BackendServiceConfig_ImageConfig := BackendServiceConfig_ImageConfig cfg;
          BackendServiceConfig_ImageOverride := BackendServiceConfig_ImageOverride cfg;
          BackendServiceConfig_TaskConfig :=
            TaskConfig_set_Count v (BackendServiceConfig_TaskConfig cfg);
          BackendServiceConfig_Logging := BackendServiceConfig_Logging cfg;
          BackendServiceConfig_Sidecars := BackendServiceConfig_Sidecars cfg;
          BackendServiceConfig_Network := BackendServiceConfig_Network cfg |};
     BackendService_Environments := BackendService_Environments s;
     BackendService_parser := BackendService_parser s |}.

Definition WorkerService_set_Count (v : Count) (s : WorkerService) : WorkerService :=
  let cfg := WorkerService_Config s in
  {| WorkerService_Workload := WorkerService_Workload s;
     WorkerService_Config :=
       {| WorkerServiceConfig_ImageConfig := WorkerServiceConfig_ImageConfig cfg;
          WorkerServiceConfig_ImageOverride := WorkerServiceConfig_ImageOverride cfg;
          WorkerServiceConfig_TaskConfig :=
            TaskConfig_set_Count v (WorkerServiceConfig_TaskConfig cfg);
          WorkerServiceConfig_Logging := WorkerServiceConfig_Logging cfg;
          WorkerServiceConfig_Sidecars := WorkerServiceConfig_Sidecars cfg;
          WorkerServiceConfig_Subscribe := WorkerServiceConfig_Subscribe cfg;
          WorkerServiceConfig_Network := WorkerServiceConfig_Network cfg |};
     WorkerService_Environments := WorkerService_Environments s;
     WorkerService_parser := WorkerService_parser s |}.

(** [s.Environments = v] *)
Definition BackendService_set_Environments
    (v : option (gmap string (option BackendServiceConfig))) (s : BackendService)
  : BackendService :=
  {| BackendService_Workload := BackendService_Workload s;
     BackendService_Config := BackendService_Config s;
     BackendService_Environments := v;
     BackendService_parser := BackendService_parser s |}.

Definition WorkerService_set_Environments
    (v : option (gmap string (option WorkerServiceConfig))) (s : WorkerService)
  : WorkerService :=
  {| WorkerService_Workload := WorkerService_Workload s;
     WorkerService_Config := WorkerService_Config s;
     WorkerService_Environments := v;
     WorkerService_parser := WorkerService_parser s |}.

Section walk.

Variable c : mergo.Config.
Variable t : option Transformers.

Definition deepMerge_BackendServiceConfig (dst src : BackendServiceConfig)
  : Result BackendServiceConfig :=
  let di := BackendServiceConfig_ImageConfig dst in
  let si := BackendServiceConfig_ImageConfig src in
  image ← deepMerge_Image_with c t (ImageWithPort_Image (ServiceImageWithPort di))
                                   (ImageWithPort_Image (ServiceImageWithPort si));
  Ok {| BackendServiceConfig_ImageConfig :=
          {| ServiceImageWithPort :=
               {| ImageWithPort_Image := image;
                  ImageWithPort_Port :=
                    mergo.ptr (deepMerge_int c) (ImageWithPort_Port (ServiceImageWithPort di))
                              (ImageWithPort_Port (ServiceImageWithPort si)) |};
             ImageConfig_HealthCheck :=
               mergo.ptr (deepMerge_ContainerHealthCheck c) (ImageConfig_HealthCheck di)
                         (ImageConfig_HealthCheck si) |};
        BackendServiceConfig_ImageOverride :=
          deepMerge_ImageOverride c (BackendServiceConfig_ImageOverride dst)
                                  (BackendServiceConfig_ImageOverride src);
        BackendServiceConfig_TaskConfig :=
          deepMerge_TaskConfig c (BackendServiceConfig_TaskConfig dst)
                               (BackendServiceConfig_TaskConfig src);
        BackendServiceConfig_Logging :=
          mergo.ptr (deepMerge_Logging c) (BackendServiceConfig_Logging dst)
                    (BackendServiceConfig_Logging src);
        BackendServiceConfig_Sidecars :=
          mergo.mapPtr (deepMerge_SidecarConfig c) (BackendServiceConfig_Sidecars dst)
                       (BackendServiceConfig_Sidecars src);
        BackendServiceConfig_Network :=
          deepMerge_NetworkConfig c (BackendServiceConfig_Network dst)
                                  (BackendServiceConfig_Network src) |}.

Definition deepMerge_BackendService (dst src : BackendService) : Result BackendService :=
  config ← deepMerge_BackendServiceConfig (BackendService_Config dst)
                                          (BackendService_Config src);
  environments ← mergo_mapPtr_with deepMerge_BackendServiceConfig
                   (BackendService_Environments dst) (BackendService_Environments src);
  Ok {| BackendService_Workload :=
          deepMerge_Workload c (BackendService_Workload dst) (BackendService_Workload src);
        BackendService_Config := config;
        BackendService_Environments := environments;
        (* an interface value: a nil source leaves the destination alone *)
        BackendService_parser :=
          match BackendService_parser src with
          | None => BackendService_parser dst
          | Some p => Some p
          end |}.

Definition deepMerge_WorkerServiceConfig (dst src : WorkerServiceConfig)
  : Result WorkerServiceConfig :=
  let di := WorkerServiceConfig_ImageConfig dst in
  let si := WorkerServiceConfig_ImageConfig src in
  image ← deepMerge_Image_with c t (ImageWithHealthcheck_Image di)
                                   (ImageWithHealthcheck_Image si);
  Ok {| WorkerServiceConfig_ImageConfig :=
          {| ImageWithHealthcheck_Image := image;
             ImageWithHealthcheck_HealthCheck :=
               mergo.ptr (deepMerge_ContainerHealthCheck c)
                         (ImageWithHealthcheck_HealthCheck di)
                         (ImageWithHealthcheck_HealthCheck si) |};
        WorkerServiceConfig_ImageOverride :=
          deepMerge_ImageOverride c (WorkerServiceConfig_ImageOverride dst)
                                  (WorkerServiceConfig_ImageOverride src);
        WorkerServiceConfig_TaskConfig :=
          deepMerge_TaskConfig c (WorkerServiceConfig_TaskConfig dst)
                               (WorkerServiceConfig_TaskConfig src);
        WorkerServiceConfig_Logging :=
          mergo.ptr (deepMerge_Logging c) (WorkerServiceConfig_Logging dst)
                    (WorkerServiceConfig_Logging src);
        WorkerServiceConfig_Sidecars :=
          mergo.mapPtr (deepMerge_SidecarConfig c) (WorkerServiceConfig_Sidecars dst)
                       (WorkerServiceConfig_Sidecars src);
        WorkerServiceConfig_Subscribe :=
          mergo.ptr (deepMerge_SubscribeConfig c) (WorkerServiceConfig_Subscribe dst)
                    (WorkerServiceConfig_Subscribe src);
        WorkerServiceConfig_Network :=
          mergo.ptr (deepMerge_NetworkConfig c) (WorkerServiceConfig_Network dst)
                    (WorkerServiceConfig_Network src) |}.

Definition deepMerge_WorkerService (dst src : WorkerService) : Result WorkerService :=
  config ← deepMerge_WorkerServiceConfig (WorkerService_Config dst)
                                         (WorkerService_Config src);
  environments ← mergo_mapPtr_with deepMerge_WorkerServiceConfig
                   (WorkerService_Environments dst) (WorkerService_Environments src);
  Ok {| WorkerService_Workload :=
          deepMerge_Workload c (WorkerService_Workload dst) (WorkerService_Workload src);
        WorkerService_Config := config;
        WorkerService_Environments := environments;
        WorkerService_parser :=
          match WorkerService_parser src with
          | None => WorkerService_parser dst
          | Some p => Some p
          end |}.

End walk.

(** [s.Environments[envName]]: the entry and whether it is present. *)
Definition lookupEnv {A} (environments : option (gmap string (option A))) (envName : string)
  : option (option A) :=
  match environments with
  | Some m => m !! envName
  | None => None
  end.

(** BackendService.ApplyEnv *)
Definition BackendService_ApplyEnv (s : BackendService) (envName : string)
  : Result BackendService :=
  match lookupEnv (BackendService_Environments s) envName with
  | None => Ok s
  | Some None => Ok s
  | Some (Some overrideConfig) =>
      let envCount := TaskConfig_Count (BackendServiceConfig_TaskConfig overrideConfig) in
      let s := if negb (Count_IsEmpty envCount) then BackendService_set_Count envCount s
               else s in
      (* Apply overrides to the original service s. *)
      match deepMerge_BackendService WithOverride_WithOverwriteWithEmptyValue None s
              {| BackendService_Workload := {| Workload_Name := None; Workload_Type := None |};
                 BackendService_Config := overrideConfig;
                 BackendService_Environments := None;
                 BackendService_parser := None |} with
      | Err err => Err err
      | Ok s => Ok (BackendService_set_Environments None s)
      end
  end.

(** WorkerService.ApplyEnv *)
Definition WorkerService_ApplyEnv (s : WorkerService) (envName : string)
  : Result WorkerService :=
  match lookupEnv (WorkerService_Environments s) envName with
  | None => Ok s
  | Some None => Ok s
  | Some (Some overrideConfig) =>
      let envCount := TaskConfig_Count (WorkerServiceConfig_TaskConfig overrideConfig) in
      let s := if negb (Count_IsEmpty envCount) then WorkerService_set_Count envCount s
               else s in
      (* Apply overrides to the original service s. *)
      match deepMerge_WorkerService WithOverride_WithOverwriteWithEmptyValue
              (Some workloadTransformer) s
              {| WorkerService_Workload := {| Workload_Name := None; Workload_Type := None |};
                 WorkerService_Config := overrideConfig;
                 WorkerService_Environments := None;
                 WorkerService_parser := None |} with
      | Err err => Err err
      | Ok s => Ok (WorkerService_set_Environments None s)
      end
  end.

Definition BackendService_BuildRequired (s : BackendService) : Result bool :=
  requiresBuild (BackendService_Image s).

Definition WorkerService_BuildRequired (s : WorkerService) : Result bool :=
  requiresBuild (WorkerService_Image s).

Definition BackendService_BuildArgs (s : BackendService) (wsRoot : string) : DockerBuildArgs :=
  Image_BuildConfig (BackendService_Image s) wsRoot.

Definition WorkerService_BuildArgs (s : WorkerService) (wsRoot : string) : DockerBuildArgs :=
  Image_BuildConfig (WorkerService_Image s) wsRoot.

(** newDefaultBackendService: minimal task sizes and a single replica. *)
Definition newDefaultBackendService : BackendService :=
  {| BackendService_Workload :=
       {| Workload_Name := None; Workload_Type := Some BackendServiceType |};
     BackendService_Config :=
       {| BackendServiceConfig_ImageConfig :=
            {| ServiceImageWithPort :=
                 {| ImageWithPort_Image :=
                      {| Image_Build :=
                           {| BuildString := None;
                              BuildArgs := {| DockerBuildArgs_Context := None;
                                              DockerBuildArgs_Dockerfile := None;
                                              DockerBuildArgs_Args := None;
                                              DockerBuildArgs_Target := None;
                                              DockerBuildArgs_CacheFrom := None |} |};
                         Image_Location := None;
                         Image_DockerLabels := None;
                         Image_DependsOn := None |};
                    ImageWithPort_Port := None |};
               ImageConfig_HealthCheck := None |};
          BackendServiceConfig_ImageOverride := ImageOverride_zero;
          BackendServiceConfig_TaskConfig :=
            {| TaskConfig_CPU := Some 256;
               TaskConfig_Memory := Some 512;
               TaskConfig_Count :=
                 {| Count_Value := Some 1;
                    Count_Autoscaling := {| Autoscaling_Range := None;
                                            Autoscaling_CPU := None;
                                            Autoscaling_Memory := None;
                                            Autoscaling_Requests := None;
                                            Autoscaling_ResponseTime := None |} |};
               TaskConfig_Variables := None;
               TaskConfig_Secrets := None;
               TaskConfig_ExecuteCommand :=
                 {| ExecuteCommand_Enable := Some false;
                    ExecuteCommand_Config := {| ExecuteCommandConfig_Enable := None |} |} |};
          BackendServiceConfig_Logging := None;
          BackendServiceConfig_Sidecars := None;
          BackendServiceConfig_Network :=
            {| NetworkConfig_VPC :=
                 Some {| vpcConfig_Placement := stringP PublicSubnetPlacement |} |} |};
     BackendService_Environments := None;
     BackendService_parser := None |}.

(** [m.BackendServiceConfig.ImageConfig.HealthCheck = v] *)
Definition BackendService_set_HealthCheck (v : option ContainerHealthCheck)
    (m : BackendService) : BackendService :=
  let cfg := BackendService_Config m in
  {| BackendService_Workload := BackendService_Workload m;
     BackendService_Config :=
       {| BackendServiceConfig_ImageConfig :=
            {| ServiceImageWithPort :=
                 ServiceImageWithPort (BackendServiceConfig_ImageConfig cfg);
               ImageConfig_HealthCheck := v |};
          BackendServiceConfig_ImageOverride := BackendServiceConfig_ImageOverride cfg;
          BackendServiceConfig_TaskConfig := BackendServiceConfig_TaskConfig cfg;
          BackendServiceConfig_Logging := BackendServiceConfig_Logging cfg;
          BackendServiceConfig_Sidecars := BackendServiceConfig_Sidecars cfg;
          BackendServiceConfig_Network := BackendServiceConfig_Network cfg |};
     BackendService_Environments := BackendService_Environments m;
     BackendService_parser := BackendService_parser m |}.

Definition BackendService_HealthCheck (m : BackendService) : option ContainerHealthCheck :=
  ImageConfig_HealthCheck (BackendServiceConfig_ImageConfig (BackendService_Config m)).

Section UnmarshalWorkload.

(** The two other manifest kinds and [yaml.Unmarshal] are outside the
    files under study.  [yaml.Unmarshal(in, &v)] gives the decoded value
    or the decoder's error, for each target the function decodes into. *)
Context {LoadBalancedWebService ScheduledJob : Type}.
Variable newDefaultLoadBalancedWebService : LoadBalancedWebService.
Variable newDefaultScheduledJob : ScheduledJob.

Record yaml_Unmarshal : Type := {
  Unmarshal_Workload : string -> Workload -> Result Workload;
  Unmarshal_LoadBalancedWebService :
    string -> LoadBalancedWebService -> Result LoadBalancedWebService;
  Unmarshal_BackendService : string -> BackendService -> Result BackendService;
  Unmarshal_ScheduledJob : string -> ScheduledJob -> Result ScheduledJob
}.

Variable yaml : yaml_Unmarshal.

(** The manifest returned as [interface{}]. *)
Inductive WorkloadManifest : Type :=
| LoadBalancedWebService_manifest (m : LoadBalancedWebService)
| BackendService_manifest (m : BackendService)
| ScheduledJob_manifest (m : ScheduledJob).

(** UnmarshalWorkload: decode the common header, then the manifest of the
    declared type into that type's defaults. *)
Definition UnmarshalWorkload (in_ : string) : Result WorkloadManifest :=
  match Unmarshal_Workload yaml in_ {| Workload_Name := None; Workload_Type := None |} with
  | Err err => Err (fmt_Errorf_w "unmarshal to workload manifest" err)
  | Ok am =>
      let typeVal := aws_StringValue (Workload_Type am) in
      if String.eqb typeVal LoadBalancedWebServiceType then
        let m := newDefaultLoadBalancedWebService in
        match Unmarshal_LoadBalancedWebService yaml in_ m with
        | Err err => Err (fmt_Errorf_w "unmarshal to load balanced web service" err)
        | Ok m => Ok (LoadBalancedWebService_manifest m)
        end
      else if String.eqb typeVal BackendServiceType then
        let m := newDefaultBackendService in
        match Unmarshal_BackendService yaml in_ m with
        | Err err => Err (fmt_Errorf_w "unmarshal to backend service" err)
        | Ok m =>
            let m :=
              match BackendService_HealthCheck m with
              | Some hc =>
                  (* Make sure that unset fields in the healthcheck gets a default value. *)
                  BackendService_set_HealthCheck
                    (Some (ContainerHealthCheck_applyIfNotSet
                             hc newDefaultContainerHealthCheck)) m
              | None => m
              end in
            Ok (BackendService_manifest m)
        end
      else if String.eqb typeVal ScheduledJobType then
        let m := newDefaultScheduledJob in
        match Unmarshal_ScheduledJob yaml in_ m with
        | Err err => Err (fmt_Errorf_w "unmarshal to scheduled job" err)
        | Ok m => Ok (ScheduledJob_manifest m)
        end
      else Err (ErrInvalidWorkloadType typeVal)
  end.

End UnmarshalWorkload.

End Manifest.

(** ** Statement vocabulary *)

(** strings.Count(s, sep) for a one-byte separator. *)
Fixpoint strings_Count (s : string) (sep : ascii) : nat :=
  match s with
  | EmptyString => 0%nat
  | String c r => if Ascii.eqb c sep then S (strings_Count r sep) else strings_Count r sep
  end.

(** The precedence table of the build-context resolver, row by row:
    dockerfile path and context directory for a dockerfile [df] and a
    context [ctx], either of which may be empty. *)
Definition precedence_table (root df ctx : string) : string * string :=
  match String.eqb df "", String.eqb ctx "" with
  | false, false => (filepath_Join [root; df], filepath_Join [root; ctx])
  | false, true => (filepath_Join [root; df], filepath_Join [root; filepath_Dir df])
  | true, false => (filepath_Join [root; ctx; "Dockerfile"%string], filepath_Join [root; ctx])
  | true, true => (filepath_Join [root; "Dockerfile"%string], root)
  end.

(** The four fields HealthCheckOpts dereferences are all set. *)
Definition all_deref_set (hc : ContainerHealthCheck) : bool :=
  negb (IsNil (HealthCheck_Interval hc)) && negb (IsNil (HealthCheck_Retries hc))
  && negb (IsNil (HealthCheck_Timeout hc)) && negb (IsNil (HealthCheck_StartPeriod hc)).

(** The callback of the decoder on a mapping node [{enable: b}], as the
    "exec" field holds it in its structured form: it fills the
    structured target and refuses the scalar ones. *)
Definition unmarshal_enable_mapping (b : bool) : unmarshalFunc :=
  {| unmarshal_DockerBuildArgs := fun args => (args, None);
     unmarshal_string := fun p =>
       (p, Some (yaml_TypeError ["cannot unmarshal !!map into string"%string]));
     unmarshal_ExecuteCommandConfig := fun _ =>
       ({| ExecuteCommandConfig_Enable := Some b |}, None);
     unmarshal_bool := fun p =>
       (p, Some (yaml_TypeError ["cannot unmarshal !!map into bool"%string])) |}.

(** The scalars that the decoder reads as a boolean when the target is a
    bool and the node is a string (the YAML 1.1 spellings). *)
Definition yaml_bool_of_string (s : string) : option bool :=
  if existsb (String.eqb s) ["y"; "Y"; "yes"; "Yes"; "YES"; "on"; "On"; "ON"]%string
  then Some true
  else if existsb (String.eqb s) ["n"; "N"; "no"; "No"; "NO"; "off"; "Off"; "OFF"]%string
  then Some false
  else None.

(** The callback of the decoder on a scalar node of tag [!!str] and value
    [s] (a quoted scalar, or a plain one that resolves to no other type),
    as the "build" field holds it in its scalar form: it refuses the
    structured targets, fills a string target, and fills a bool target when
    [s] is one of the YAML 1.1 spellings of a boolean. *)
Definition unmarshal_string_scalar (s : string) : unmarshalFunc :=
  {| unmarshal_DockerBuildArgs := fun args =>
       (args, Some (yaml_TypeError ["cannot unmarshal !!str into manifest.DockerBuildArgs"%string]));
     unmarshal_string := fun _ => (Some s, None);
     unmarshal_ExecuteCommandConfig := fun cfg =>
       (cfg, Some (yaml_TypeError
                     ["cannot unmarshal !!str into manifest.ExecuteCommandConfig"%string]));
     unmarshal_bool := fun p =>
       match yaml_bool_of_string s with
       | Some b => (Some b, None)
       | None => (p, Some (yaml_TypeError ["cannot unmarshal !!str into bool"%string]))
       end |}.

(** Go zero values. *)
Definition DockerBuildArgs_zero : DockerBuildArgs :=
  {| DockerBuildArgs_Context := None; DockerBuildArgs_Dockerfile := None;
     DockerBuildArgs_Args := None; DockerBuildArgs_Target := None;
     DockerBuildArgs_CacheFrom := None |}.

Definition BuildArgsOrString_zero : BuildArgsOrString :=
  {| BuildString := None; BuildArgs := DockerBuildArgs_zero |}.

Definition Image_zero : Image :=
  {| Image_Build := BuildArgsOrString_zero; Image_Location := None;
     Image_DockerLabels := None; Image_DependsOn := None |}.

Definition Autoscaling_zero : Autoscaling :=
  {| Autoscaling_Range := None; Autoscaling_CPU := None; Autoscaling_Memory := None;
     Autoscaling_Requests := None; Autoscaling_ResponseTime := None |}.

Definition Count_zero : Count :=
  {| Count_Value := None; Count_Autoscaling := Autoscaling_zero |}.

Definition TaskConfig_zero : TaskConfig :=
  {| TaskConfig_CPU := None; TaskConfig_Memory := None; TaskConfig_Count := Count_zero;
     TaskConfig_Variables := None; TaskConfig_Secrets := None;
     TaskConfig_ExecuteCommand :=
       {| ExecuteCommand_Enable := None;
          ExecuteCommand_Config := {| ExecuteCommandConfig_Enable := None |} |} |}.

Definition Workload_zero : Workload := {| Workload_Name := None; Workload_Type := None |}.

(** The four workload kinds. *)
Definition is_workload_kind (typeVal : string) : bool :=
  String.eqb typeVal LoadBalancedWebServiceType || String.eqb typeVal BackendServiceType
  || String.eqb typeVal ScheduledJobType || String.eqb typeVal WorkerServiceType.

(** The dispatch rule in the words of the specification: an error exactly
    when the document does not parse into the base shape or declares a type
    outside the four kinds, and a typed manifest otherwise. *)
Definition dispatch_as_specified {A : Type} (base : Result Workload) (result : Result A) : Prop :=
  match base with
  | Err _ => is_Err result = true
  | Ok am => is_Err result = negb (is_workload_kind (aws_StringValue (Workload_Type am)))
  end.

(** A decoder run on a backend document whose header is well formed and
    whose "cpu" field holds a sequence: the header decodes, the backend
    manifest does not. *)
Definition yaml_on_backend_with_bad_cpu : @yaml_Unmarshal unit unit unit unit :=
  {| Unmarshal_Workload := fun _ _ =>
       Ok {| Workload_Name := Some "api"%string; Workload_Type := Some BackendServiceType |};
     Unmarshal_LoadBalancedWebService := fun _ m => Ok m;
     Unmarshal_BackendService := fun _ _ =>
       Err (yaml_TypeError ["line 3: cannot unmarshal !!seq into int"%string]);
     Unmarshal_ScheduledJob := fun _ m => Ok m |}.

(** A decoder run on a backend document that sets only a health check
    command: the backend decode keeps the defaults and sets the command. *)
Definition yaml_on_backend_with_command : @yaml_Unmarshal unit unit unit unit :=
  {| Unmarshal_Workload := fun _ _ =>
       Ok {| Workload_Name := Some "api"%string; Workload_Type := Some BackendServiceType |};
     Unmarshal_LoadBalancedWebService := fun _ m => Ok m;
     Unmarshal_BackendService := fun _ m =>
       Ok (BackendService_set_HealthCheck
             (Some {| HealthCheck_Command := Some ["CMD"; "true"]%string;
                      HealthCheck_Interval := None; HealthCheck_Retries := None;
                      HealthCheck_Timeout := None; HealthCheck_StartPeriod := None |}) m);
     Unmarshal_ScheduledJob := fun _ m => Ok m |}.

(** Concrete manifests.  The override types outside the files under study
    are instantiated with [unit], which the merge leaves alone. *)
Definition keep_ImageOverride : mergo.Config -> unit -> unit -> unit := fun _ dst _ => dst.

Definition fixed_count (n : Z) : Count :=
  {| Count_Value := Some n; Count_Autoscaling := Autoscaling_zero |}.

Definition autoscaling_count (range : string) (cpu : Z) : Count :=
  {| Count_Value := None;
     Count_Autoscaling :=
       {| Autoscaling_Range := Some range; Autoscaling_CPU := Some cpu;
          Autoscaling_Memory := None; Autoscaling_Requests := None;
          Autoscaling_ResponseTime := None |} |}.

Definition image_built_from (dockerfile : string) : Image :=
  {| Image_Build :=
       {| BuildString := None;
          BuildArgs := {| DockerBuildArgs_Context := None;
                          DockerBuildArgs_Dockerfile := Some dockerfile;
                          DockerBuildArgs_Args := None;
                          DockerBuildArgs_Target := None;
                          DockerBuildArgs_CacheFrom := None |} |};
     Image_Location := None; Image_DockerLabels := None; Image_DependsOn := None |}.

Definition image_located_at (location : string) : Image :=
  {| Image_Build := BuildArgsOrString_zero; Image_Location := Some location;
     Image_DockerLabels := None; Image_DependsOn := None |}.

Definition task_with (cpu : option Z) (count : Count) : TaskConfig :=
  {| TaskConfig_CPU := cpu; TaskConfig_Memory := None; TaskConfig_Count := count;
     TaskConfig_Variables := None; TaskConfig_Secrets := None;
     TaskConfig_ExecuteCommand := TaskConfig_ExecuteCommand TaskConfig_zero |}.

Definition backend_config (image : Image) (task : TaskConfig) : @BackendServiceConfig unit :=
  {| BackendServiceConfig_ImageConfig :=
       {| ServiceImageWithPort := {| ImageWithPort_Image := image; ImageWithPort_Port := None |};
          ImageConfig_HealthCheck := None |};
     BackendServiceConfig_ImageOverride := tt;
     BackendServiceConfig_TaskConfig := task;
     BackendServiceConfig_Logging := None;
     BackendServiceConfig_Sidecars := None;
     BackendServiceConfig_Network := {| NetworkConfig_VPC := None |} |}.

Definition worker_config (image : Image) (task : TaskConfig) : @WorkerServiceConfig unit :=
  {| WorkerServiceConfig_ImageConfig :=
       {| ImageWithHealthcheck_Image := image; ImageWithHealthcheck_HealthCheck := None |};
     WorkerServiceConfig_ImageOverride := tt;
     WorkerServiceConfig_TaskConfig := task;
     WorkerServiceConfig_Logging := None;
     WorkerServiceConfig_Sidecars := None;
     WorkerServiceConfig_Subscribe := None;
     WorkerServiceConfig_Network := None |}.

(** A backend service built from ./Dockerfile with three replicas, and three
    environments: "test" is registered without overrides, "staging"
    overrides the cpu only, "prod-iad" runs an existing image under an
    autoscaling policy. *)
Definition backend_example : @BackendService unit unit :=
  {| BackendService_Workload :=
       {| Workload_Name := Some "api"%string; Workload_Type := Some BackendServiceType |};
     BackendService_Config :=
       backend_config (image_built_from "./Dockerfile") (task_with (Some 256) (fixed_count 3));
     BackendService_Environments :=
       Some (<["test"%string := None]>
             (<["staging"%string :=
                  Some (backend_config Image_zero (task_with (Some 512) Count_zero))]>
              (<["prod-iad"%string :=
                   Some (backend_config (image_located_at "env-override location")
                                        (task_with None (autoscaling_count "1-10" 70)))]> ∅)));
     BackendService_parser := None |}.

(** The same service as a worker. *)
Definition worker_example : @WorkerService unit unit :=
  {| WorkerService_Workload :=
       {| Workload_Name := Some "api"%string; Workload_Type := Some WorkerServiceType |};
     WorkerService_Config :=
       worker_config (image_built_from "./Dockerfile") (task_with (Some 256) (fixed_count 3));
     WorkerService_Environments :=
       Some (<["test"%string := None]>
             (<["staging"%string :=
                  Some (worker_config Image_zero (task_with (Some 512) Count_zero))]>
              (<["prod-iad"%string :=
                   Some (worker_config (image_located_at "env-override location")
                                       (task_with None (autoscaling_count "1-10" 70)))]> ∅)));
     WorkerService_parser := None |}.

(** The callback of the decoder on a mapping node [{context: dir}], as the
    "build" field holds it in its structured form. *)
Definition unmarshal_context_mapping (dir : string) : unmarshalFunc :=
  {| unmarshal_DockerBuildArgs := fun args =>
       ({| DockerBuildArgs_Context := Some dir;
           DockerBuildArgs_Dockerfile := DockerBuildArgs_Dockerfile args;
           DockerBuildArgs_Args := DockerBuildArgs_Args args;
           DockerBuildArgs_Target := DockerBuildArgs_Target args;
           DockerBuildArgs_CacheFrom := DockerBuildArgs_CacheFrom args |}, None);
     unmarshal_string := fun p =>
       (p, Some (yaml_TypeError ["cannot unmarshal !!map into string"%string]));
     unmarshal_ExecuteCommandConfig := fun cfg => (cfg, None);
     unmarshal_bool := fun p =>
       (p, Some (yaml_TypeError ["cannot unmarshal !!map into bool"%string])) |}.

(** A decoder run on a document that declares the type "Lambda". *)
Definition yaml_on_unknown_type : @yaml_Unmarshal unit unit unit unit :=
  {| Unmarshal_Workload := fun _ _ =>
       Ok {| Workload_Name := Some "api"%string; Workload_Type := Some "Lambda"%string |};
     Unmarshal_LoadBalancedWebService := fun _ m => Ok m;
     Unmarshal_BackendService := fun _ m => Ok m;
     Unmarshal_ScheduledJob := fun _ m => Ok m |}.

(** [float64(n)] for an int64 [n]: the nearest double, ties to even. *)
Definition float64_of_int64 (n : Z) : PrimFloat.float :=
  if Z.ltb n 0 then PrimFloat.opp (PrimFloat.of_uint63 (Uint63.of_Z (- n)))
  else PrimFloat.of_uint63 (Uint63.of_Z n).

(** [int64(f)] for a finite double [f] within the range of int64: the
    fraction is discarded.  (Out of that range Go leaves the result to the
    implementation; durations do not reach it.) *)
Definition int64_of_float64 (f : PrimFloat.float) : Z :=
  match FloatOps.Prim2SF f with
  | SpecFloat.S754_finite s m e =>
      let mag := if Z.leb 0 e then Z.shiftl (Zpos m) e else Z.shiftr (Zpos m) (- e) in
      if s then - mag else mag
  | _ => 0
  end.

(** time.Duration.Seconds: [sec := d / Second; nsec := d % Second;
    return float64(sec) + float64(nsec)/1e9]. *)
Definition Duration_Seconds (d : Duration) : PrimFloat.float :=
  let sec := Z.quot d time_Second in
  let nsec := Z.rem d time_Second in
  PrimFloat.add (float64_of_int64 sec)
                (PrimFloat.div (float64_of_int64 nsec) (float64_of_int64 1000000000)).

(** [int64(d.Seconds())]: the whole seconds of a duration as HealthCheckOpts
    computes them, through float64. *)
Definition whole_seconds (d : Duration) : Z := int64_of_float64 (Duration_Seconds d).

(** ** Constructors *)

Record WorkloadProps : Type := {
  WorkloadProps_Name : string;
  WorkloadProps_Dockerfile : string;
  WorkloadProps_Image : string
}.

Record BackendServiceProps : Type := {
  BackendServiceProps_WorkloadProps : WorkloadProps;
  BackendServiceProps_Port : Z;                                  (* uint16 *)
  BackendServiceProps_HealthCheck : option ContainerHealthCheck
}.

Record WorkerServiceProps : Type := {
  WorkerServiceProps_WorkloadProps : WorkloadProps;
  WorkerServiceProps_HealthCheck : option ContainerHealthCheck;
  WorkerServiceProps_Topics : option (option (list TopicSubscription))
}.

(** [i.Location = v] *)
Definition Image_set_Location (v : option string) (i : Image) : Image :=
  {| Image_Build := Image_Build i;
     Image_Location := v;
     Image_DockerLabels := Image_DockerLabels i;
     Image_DependsOn := Image_DependsOn i |}.

(** [i.Build.BuildArgs.Dockerfile = v] *)
Definition Image_set_Dockerfile (v : option string) (i : Image) : Image :=
  let args := BuildArgs (Image_Build i) in
  {| Image_Build :=
       {| BuildString := BuildString (Image_Build i);
          BuildArgs := {| DockerBuildArgs_Context := DockerBuildArgs_Context args;
                          DockerBuildArgs_Dockerfile := v;
                          DockerBuildArgs_Args := DockerBuildArgs_Args args;
                          DockerBuildArgs_Target := DockerBuildArgs_Target args;
                          DockerBuildArgs_CacheFrom := DockerBuildArgs_CacheFrom args |} |};
     Image_Location := Image_Location i;
     Image_DockerLabels := Image_DockerLabels i;
     Image_DependsOn := Image_DependsOn i |}.

Section Constructors.

Context {ImageOverride template_Parser : Type}.
Variable ImageOverride_zero : ImageOverride.
(** template.New() *)
Variable template_New : template_Parser.

(** [svc.BackendServiceConfig.ImageConfig.ServiceImageWithPort = v] *)
Definition BackendService_set_ImageWithPort (v : ImageWithPort)
    (svc : @BackendService ImageOverride template_Parser) : BackendService :=
  let cfg := BackendService_Config svc in
  {| BackendService_Workload := BackendService_Workload svc;
     BackendService_Config :=
       {| BackendServiceConfig_ImageConfig :=
            {| ServiceImageWithPort := v;
               ImageConfig_HealthCheck :=
                 ImageConfig_HealthCheck (BackendServiceConfig_ImageConfig cfg) |};
          BackendServiceConfig_ImageOverride := BackendServiceConfig_ImageOverride cfg;
          BackendServiceConfig_TaskConfig := BackendServiceConfig_TaskConfig cfg;
          BackendServiceConfig_Logging := BackendServiceConfig_Logging cfg;
          BackendServiceConfig_Sidecars := BackendServiceConfig_Sidecars cfg;
          BackendServiceConfig_Network := BackendServiceConfig_Network cfg |};
     BackendService_Environments := BackendService_Environments svc;
     BackendService_parser := BackendService_parser svc |}.

Definition BackendService_set_Image (v : Image)
    (svc : @BackendService ImageOverride template_Parser) : BackendService :=
  BackendService_set_ImageWithPort
    {| ImageWithPort_Image := v;
       ImageWithPort_Port :=
         ImageWithPort_Port
           (ServiceImageWithPort (BackendServiceConfig_ImageConfig (BackendService_Config svc))) |}
    svc.

Definition BackendService_set_Port (v : option Z)
    (svc : @BackendService ImageOverride template_Parser) : BackendService :=
  BackendService_set_ImageWithPort
    {| ImageWithPort_Image := BackendService_Image svc; ImageWithPort_Port := v |} svc.

Definition BackendService_set_Name (v : option string)
    (svc : @BackendService ImageOverride template_Parser) : BackendService :=
  {| BackendService_Workload :=
       {| Workload_Name := v; Workload_Type := Workload_Type (BackendService_Workload svc) |};
     BackendService_Config := BackendService_Config svc;
     BackendService_Environments := BackendService_Environments svc;
     BackendService_parser := BackendService_parser svc |}.

Definition BackendService_set_parser (v : option template_Parser)
    (svc : @BackendService ImageOverride template_Parser) : BackendService :=
  {| BackendService_Workload := BackendService_Workload svc;
     BackendService_Config := BackendService_Config svc;
     BackendService_Environments := BackendService_Environments svc;
     BackendService_parser := v |}.

(** NewBackendService applies the props to a default backend service
    configuration with minimal task sizes, single replica, no healthcheck. *)
Definition NewBackendService (props : BackendServiceProps)
  : @BackendService ImageOverride template_Parser :=
  let svc := newDefaultBackendService ImageOverride_zero in
  let healthCheck := None in
  let healthCheck :=
    match BackendServiceProps_HealthCheck props with
    | Some hc =>
        (* Create the healthcheck field only if the caller specified a healthcheck. *)
        Some (ContainerHealthCheck_apply newDefaultContainerHealthCheck hc)
    | None => healthCheck
    end in
  (* Apply overrides. *)
  let wp := BackendServiceProps_WorkloadProps props in
  let svc := BackendService_set_Name (Some (WorkloadProps_Name wp)) svc in
  let svc := BackendService_set_Image
               (Image_set_Location (stringP (WorkloadProps_Image wp)) (BackendService_Image svc))
               svc in
  let svc := BackendService_set_Image
               (Image_set_Dockerfile (stringP (WorkloadProps_Dockerfile wp))
                                     (BackendService_Image svc))
               svc in
  let svc := BackendService_set_Port (uint16P (BackendServiceProps_Port props)) svc in
  let svc := BackendService_set_HealthCheck healthCheck svc in
  let svc := BackendService_set_parser (Some template_New) svc in
  svc.

(** newDefaultWorkerService: minimal task sizes and a single replica. *)
Definition newDefaultWorkerService : @WorkerService ImageOverride template_Parser :=
  {| WorkerService_Workload :=
       {| Workload_Name := None; Workload_Type := Some WorkerServiceType |};
     WorkerService_Config :=
       {| WorkerServiceConfig_ImageConfig :=
            {| ImageWithHealthcheck_Image :=
                 {| Image_Build :=
                      {| BuildString := None;
                         BuildArgs := {| DockerBuildArgs_Context := None;
                                         DockerBuildArgs_Dockerfile := None;
                                         DockerBuildArgs_Args := None;
                                         DockerBuildArgs_Target := None;
                                         DockerBuildArgs_CacheFrom := None |} |};
                    Image_Location := None;
                    Image_DockerLabels := None;
                    Image_DependsOn := None |};
               ImageWithHealthcheck_HealthCheck := None |};
          WorkerServiceConfig_ImageOverride := ImageOverride_zero;
          WorkerServiceConfig_TaskConfig :=
            {| TaskConfig_CPU := Some 256;
               TaskConfig_Memory := Some 512;
               TaskConfig_Count :=
                 {| Count_Value := Some 1;
                    Count_Autoscaling := {| Autoscaling_Range := None;
                                            Autoscaling_CPU := None;
                                            Autoscaling_Memory := None;
                                            Autoscaling_Requests := None;
                                            Autoscaling_ResponseTime := None |} |};
               TaskConfig_Variables := None;
               TaskConfig_Secrets := None;
               TaskConfig_ExecuteCommand :=
                 {| ExecuteCommand_Enable := Some false;
                    ExecuteCommand_Config := {| ExecuteCommandConfig_Enable := None |} |} |};
          WorkerServiceConfig_Logging := None;
          WorkerServiceConfig_Sidecars := None;
          WorkerServiceConfig_Subscribe := Some {| SubscribeConfig_Topics := None |};
          WorkerServiceConfig_Network :=
            Some {| NetworkConfig_VPC :=
                      Some {| vpcConfig_Placement := Some PublicSubnetPlacement |} |} |};
     WorkerService_Environments := None;
     WorkerService_parser := None |}.

(** [svc.WorkerServiceConfig.ImageConfig = v] *)
Definition WorkerService_set_ImageConfig (v : ImageWithHealthcheck)
    (svc : @WorkerService ImageOverride template_Parser) : WorkerService :=
  let cfg := WorkerService_Config svc in
  {| WorkerService_Workload := WorkerService_Workload svc;
     WorkerService_Config :=
       {| WorkerServiceConfig_ImageConfig := v;
          WorkerServiceConfig_ImageOverride := WorkerServiceConfig_ImageOverride cfg;
          WorkerServiceConfig_TaskConfig := WorkerServiceConfig_TaskConfig cfg;
          WorkerServiceConfig_Logging := WorkerServiceConfig_Logging cfg;
          WorkerServiceConfig_Sidecars := WorkerServiceConfig_Sidecars cfg;
          WorkerServiceConfig_Subscribe := WorkerServiceConfig_Subscribe cfg;
          WorkerServiceConfig_Network := WorkerServiceConfig_Network cfg |};
     WorkerService_Environments := WorkerService_Environments svc;
     WorkerService_parser := WorkerService_parser svc |}.

Definition WorkerService_set_Image (v : Image)
    (svc : @WorkerService ImageOverride template_Parser) : WorkerService :=
  WorkerService_set_ImageConfig
    {| ImageWithHealthcheck_Image := v;
       ImageWithHealthcheck_HealthCheck :=
         ImageWithHealthcheck_HealthCheck (WorkerServiceConfig_ImageConfig (WorkerService_Config svc)) |}
    svc.

Definition WorkerService_set_HealthCheck (v : option ContainerHealthCheck)
    (svc : @WorkerService ImageOverride template_Parser) : WorkerService :=
  WorkerService_set_ImageConfig
    {| ImageWithHealthcheck_Image := WorkerService_Image svc;
       ImageWithHealthcheck_HealthCheck := v |}
    svc.

(** [svc.WorkerServiceConfig.Subscribe.Topics = v]: a write through the
    [Subscribe] pointer, which panics when the pointer is nil. *)
Definition WorkerService_set_Topics (v : option (option (list TopicSubscription)))
    (svc : @WorkerService ImageOverride template_Parser) : Outcome WorkerService :=
  let cfg := WorkerService_Config svc in
  _ ← deref (WorkerServiceConfig_Subscribe cfg);
  mret {| WorkerService_Workload := WorkerService_Workload svc;
          WorkerService_Config :=
            {| WorkerServiceConfig_ImageConfig := WorkerServiceConfig_ImageConfig cfg;
               WorkerServiceConfig_ImageOverride := WorkerServiceConfig_ImageOverride cfg;
               WorkerServiceConfig_TaskConfig := WorkerServiceConfig_TaskConfig cfg;
               WorkerServiceConfig_Logging := WorkerServiceConfig_Logging cfg;
               WorkerServiceConfig_Sidecars := WorkerServiceConfig_Sidecars cfg;
               WorkerServiceConfig_Subscribe := Some {| SubscribeConfig_Topics := v |};
               WorkerServiceConfig_Network := WorkerServiceConfig_Network cfg |};
          WorkerService_Environments := WorkerService_Environments svc;
          WorkerService_parser := WorkerService_parser svc |}.

Definition WorkerService_set_Name (v : option string)
    (svc : @WorkerService ImageOverride template_Parser) : WorkerService :=
  {| WorkerService_Workload :=
       {| Workload_Name := v; Workload_Type := Workload_Type (WorkerService_Workload svc) |};
     WorkerService_Config := WorkerService_Config svc;
     WorkerService_Environments := WorkerService_Environments svc;
     WorkerService_parser := WorkerService_parser svc |}.

Definition WorkerService_set_parser (v : option template_Parser)
    (svc : @WorkerService ImageOverride template_Parser) : WorkerService :=
  {| WorkerService_Workload := WorkerService_Workload svc;
     WorkerService_Config := WorkerService_Config svc;
     WorkerService_Environments := WorkerService_Environments svc;
     WorkerService_parser := v |}.

(** NewWorkerService applies the props to a default worker service. *)
Definition NewWorkerService (props : WorkerServiceProps)
  : Outcome (@WorkerService ImageOverride template_Parser) :=
  let svc := newDefaultWorkerService in
  (* Apply overrides. *)
  let wp := WorkerServiceProps_WorkloadProps props in
  let svc := WorkerService_set_Name (stringP (WorkloadProps_Name wp)) svc in
  let svc := WorkerService_set_Image
               (Image_set_Location (stringP (WorkloadProps_Image wp)) (WorkerService_Image svc))
               svc in
  let svc := WorkerService_set_Image
               (Image_set_Dockerfile (stringP (WorkloadProps_Dockerfile wp))
                                     (WorkerService_Image svc))
               svc in
  let svc := WorkerService_set_HealthCheck (WorkerServiceProps_HealthCheck props) svc in
  svc ← WorkerService_set_Topics (WorkerServiceProps_Topics props) svc;
  let svc := WorkerService_set_parser (Some template_New) svc in
  mret svc.

End Constructors.

(** ** Options for the templates *)

(** template.LogConfigOpts *)
Record template_LogConfigOpts : Type := {
  LogConfigOpts_Image : option string;
  LogConfigOpts_ConfigFile : option string;
  LogConfigOpts_EnableMetadata : option string;
  LogConfigOpts_Destination : option (gmap string string);
  LogConfigOpts_SecretOptions : option (gmap string string)
}.

Definition Logging_logConfigOpts (lc : Logging) : template_LogConfigOpts :=
  {| LogConfigOpts_Image := Logging_image lc;
     LogConfigOpts_ConfigFile := Logging_ConfigFile lc;
     LogConfigOpts_EnableMetadata := Logging_enableMetadata lc;
     LogConfigOpts_Destination := Logging_Destination lc;
     LogConfigOpts_SecretOptions := Logging_SecretOptions lc |}.

(** template.SidecarOpts *)
Record template_SidecarOpts : Type := {
  SidecarOpts_Name : option string;
  SidecarOpts_Image : option string;
  SidecarOpts_Port : option string;
  SidecarOpts_Protocol : option string;
  SidecarOpts_CredsParam : option string
}.

(** [append(s, x)] on a slice that may be nil. *)
Definition go_append {A} (s : option (list A)) (x : A) : option (list A) :=
  Some (match s with Some l => l | None => [] end ++ [x]).

(** The loop of the sidecar options over [s.Sidecars]: [entries] are the
    pairs of the map in the order [range] yields them, [sidecars] the slice
    built so far.  Reading [config.Port] dereferences the entry. *)
Fixpoint Sidecar_Options_range (entries : list (string * option SidecarConfig))
    (sidecars : option (list template_SidecarOpts))
  : Outcome (Result (option (list template_SidecarOpts))) :=
  match entries with
  | [] => Returns (Ok sidecars)
  | (name, config) :: rest =>
      match config with
      | None => Panics nilPointerDereference
      | Some config =>
          match parsePortMapping (SidecarConfig_Port config) with
          | Err err => Returns (Err err)
          | Ok (port, protocol) =>
              Sidecar_Options_range rest
                (go_append sidecars
                   {| SidecarOpts_Name := Some name;
                      SidecarOpts_Image := SidecarConfig_Image config;
                      SidecarOpts_Port := port;
                      SidecarOpts_Protocol := protocol;
                      SidecarOpts_CredsParam := SidecarConfig_CredsParam config |})
          end
      end
  end.

Definition Sidecar_Options (entries : list (string * option SidecarConfig))
  : Outcome (Result (option (list template_SidecarOpts))) :=
  Sidecar_Options_range entries None.

(** A sidecar port the port grammar accepts: nil, or at most one slash. *)
Definition port_well_formed (port : option string) : bool :=
  match port with
  | None => true
  | Some s => Nat.leb (strings_Count s Separator) 1
  end.

Definition entry_well_formed (entry : string * option SidecarConfig) : bool :=
  match snd entry with
  | Some config => port_well_formed (SidecarConfig_Port config)
  | None => true
  end.

(** Whether the call returned an error (rather than a value or a panic). *)
Definition returns_error {A} (o : Outcome (Result A)) : bool :=
  match o with Returns (Err _) => true | _ => false end.

(** All five fields of a health check are set. *)
Definition all_fields_set (hc : ContainerHealthCheck) : bool :=
  negb (IsNil (HealthCheck_Command hc)) && all_deref_set hc.

(** The field of [a] when it is set, else the field of [b]. *)
Definition first_set {A} (a b : option A) : option A :=
  match a with Some v => Some v | None => b end.

(** The outcome of the build-required check by which of the two image
    sources is given. *)
Definition image_source_table (build location : bool) : Result bool :=
  match build, location with
  | true, false => Ok true
  | false, true => Ok false
  | _, _ => Err errImageSource
  end.

(** [i.Build.BuildString = v] *)
Definition Image_set_BuildString (v : option string) (i : Image) : Image :=
  {| Image_Build := {| BuildString := v; BuildArgs := BuildArgs (Image_Build i) |};
     Image_Location := Image_Location i;
     Image_DockerLabels := Image_DockerLabels i;
     Image_DependsOn := Image_DependsOn i |}.

(** The override's image sets [Build] or [Location]. *)
Definition sets_image_source (src : Image) : bool :=
  negb (BuildArgsOrString_IsZero (Image_Build src)) || negb (IsNil (Image_Location src)).

(** The entry holds a sidecar configuration (its pointer is not nil). *)
Definition entry_present (entry : string * option SidecarConfig) : bool :=
  negb (IsNil (snd entry)).

(** The names of the sidecar options in a slice. *)
Definition option_names (sidecars : option (list template_SidecarOpts)) : list (option string) :=
  map SidecarOpts_Name (match sidecars with Some l => l | None => [] end).

(** Two sidecars, one with a port and a protocol, one with the default port. *)
Definition sidecar_xray : SidecarConfig :=
  {| SidecarConfig_Port := Some "2000/udp"%string;
     SidecarConfig_Image := Some "amazon/aws-xray-daemon"%string;
     SidecarConfig_CredsParam := None |}.

Definition sidecar_nginx : SidecarConfig :=
  {| SidecarConfig_Port := None;
     SidecarConfig_Image := Some "nginx"%string;
     SidecarConfig_CredsParam := None |}.

Definition sidecar_bad_port : SidecarConfig :=
  {| SidecarConfig_Port := Some "2000/udp/extra"%string;
     SidecarConfig_Image := Some "busybox"%string;
     SidecarConfig_CredsParam := None |}.

Definition sidecars_example : gmap string (option SidecarConfig) :=
  <["xray"%string := Some sidecar_xray]> (<["bad"%string := Some sidecar_bad_port]> ∅).

(** * Properties *)

Example filepath_Join_examples :
  filepath_Join ["/ws"; "svc/Dockerfile"]%string = "/ws/svc/Dockerfile"%string
  /\ filepath_Join ["/ws"; filepath_Dir "svc/Dockerfile"]%string = "/ws/svc"%string
  /\ filepath_Join ["/ws"; filepath_Dir "Dockerfile"]%string = "/ws"%string
  /\ filepath_Join ["/ws"; "../x//y/./z/.."]%string = "/x/y"%string
  /\ filepath_Dir "/a/b/"%string = "/a/b"%string
  /\ filepath_Dir "/"%string = "/"%string
  /\ filepath_Join [""; ""]%string = ""%string
  /\ filepath_Join [""; "a"]%string = "a"%string
  /\ filepath_Clean "../../a/.."%string = "../.."%string.
Proof. repeat split; reflexivity. Qed.


(** ** Build context *)

(** C5. BuildConfig follows the precedence table.  For an image whose build
    form has the structured dockerfile [d], the structured context [c] and
    the scalar build string [bs], let [df] be the dockerfile path of the
    form ([d] when it is set, else [bs], else empty) and [ctx] its context
    ([c], empty when it is nil): the dockerfile and the context of the
    result are those of the table row for ([df] set?, [ctx] set?), and the
    build args, the target stage and the cache-from list are the build
    form's own.  The location, the labels and the dependencies of the image
    play no part. *)
Theorem BuildConfig_precedence (root : string) (bs d c target loc : option string)
    (args labels deps : option (gmap string string)) (cacheFrom : option (list string)) :
  let i := {| Image_Build :=
                {| BuildString := bs;
                   BuildArgs := {| DockerBuildArgs_Context := c;
                                   DockerBuildArgs_Dockerfile := d;
                                   DockerBuildArgs_Args := args;
                                   DockerBuildArgs_Target := target;
                                   DockerBuildArgs_CacheFrom := cacheFrom |} |};
              Image_Location := loc;
              Image_DockerLabels := labels;
              Image_DependsOn := deps |} in
  let df := match d, bs with
            | Some path, _ => path
            | None, Some path => path
            | None, None => EmptyString
            end in
  let ctx := match c with Some dir => dir | None => EmptyString end in
  Image_BuildConfig i root =
    {| DockerBuildArgs_Context := Some (snd (precedence_table root df ctx));
       DockerBuildArgs_Dockerfile := Some (fst (precedence_table root df ctx));
       DockerBuildArgs_Args := args;
       DockerBuildArgs_Target := target;
       DockerBuildArgs_CacheFrom := cacheFrom |}.
Proof.
  intros i df ctx.
  assert (Hdf : Image_dockerfile i = df) by (subst i df; destruct d, bs; reflexivity).
  assert (Hctx : Image_context i = ctx) by (subst i ctx; destruct c; reflexivity).
  unfold Image_BuildConfig, precedence_table, Image_args, Image_target, Image_cacheFrom,
    dockerfileDefaultName.
  rewrite Hdf, Hctx.
  destruct (String.eqb df ""), (String.eqb ctx ""); reflexivity.
Qed.

(** An image whose build form has the dockerfile [df] and the context [ctx]. *)
Example BuildConfig_rows :
  let image df ctx :=
    {| Image_Build :=
         {| BuildString := None;
            BuildArgs := {| DockerBuildArgs_Context := stringP ctx;
                            DockerBuildArgs_Dockerfile := stringP df;
                            DockerBuildArgs_Args := None;
                            DockerBuildArgs_Target := None;
                            DockerBuildArgs_CacheFrom := None |} |};
       Image_Location := None; Image_DockerLabels := None; Image_DependsOn := None |} in
  let paths df ctx :=
    (DockerBuildArgs_Dockerfile (Image_BuildConfig (image df ctx) "/ws"),
     DockerBuildArgs_Context (Image_BuildConfig (image df ctx) "/ws")) in
  paths "svc/Dockerfile" "" = (Some "/ws/svc/Dockerfile", Some "/ws/svc")
  /\ paths "" "svc" = (Some "/ws/svc/Dockerfile", Some "/ws/svc")
  /\ paths "" "" = (Some "/ws/Dockerfile", Some "/ws")
  /\ paths "a/Dockerfile" "b" = (Some "/ws/a/Dockerfile", Some "/ws/b").
Proof. repeat split; reflexivity. Qed.

(** Whole seconds go through float64: a duration of 16777216.999999999s
    gives 16777217. *)
Example whole_seconds_examples :
  whole_seconds (10 * time_Second) = 10
  /\ whole_seconds (5 * time_Second) = 5
  /\ whole_seconds (0 * time_Second) = 0
  /\ whole_seconds 1999999999 = 1
  /\ whole_seconds 16777216999999999 = 16777217.
Proof. repeat split; vm_compute; reflexivity. Qed.

(** ** Image source *)

Lemma requiresBuild_table (image : Image) :
  requiresBuild image =
    match negb (BuildArgsOrString_isEmpty (Image_Build image)),
          negb (IsNil (Image_Location image)) with
    | true, false => Ok true
    | false, true => Ok false
    | _, _ => Err errImageSource
    end.
Proof.
  unfold requiresBuild.
  destruct (BuildArgsOrString_isEmpty (Image_Build image)), (Image_Location image);
    reflexivity.
Qed.

(** C6. The build-required check fails exactly when the build form is
    non-empty and the location is set, or neither is; with the build form
    alone it returns true, with the location alone false.  BuildRequired of
    the backend and of the worker service is that check on the service's
    image. *)
Theorem requiresBuild_exactly_one
    {ImageOverride template_Parser : Type} (image : Image)
    (b : @BackendService ImageOverride template_Parser)
    (w : @WorkerService ImageOverride template_Parser) :
  let build := negb (BuildArgsOrString_isEmpty (Image_Build image)) in
  let location := negb (IsNil (Image_Location image)) in
  is_Err (requiresBuild image) = Bool.eqb build location
  /\ requiresBuild image =
       match build, location with
       | true, false => Ok true
       | false, true => Ok false
       | _, _ => Err errImageSource
       end
  /\ BackendService_BuildRequired b = requiresBuild (BackendService_Image b)
  /\ WorkerService_BuildRequired w = requiresBuild (WorkerService_Image w).
Proof.
  cbv zeta. rewrite requiresBuild_table.
  destruct (BuildArgsOrString_isEmpty (Image_Build image)), (Image_Location image);
    repeat split.
Qed.

(** ** Health checks *)

(** C7. applyIfNotSet never overwrites a set field: each of the five fields
    of the result is the target's when the target had it set, and the other
    health check's otherwise. *)
Theorem applyIfNotSet_keeps_set_fields (target other : ContainerHealthCheck) :
  let r := ContainerHealthCheck_applyIfNotSet target other in
  HealthCheck_Command r =
    match HealthCheck_Command target with
    | Some v => Some v | None => HealthCheck_Command other end
  /\ HealthCheck_Interval r =
    match HealthCheck_Interval target with
    | Some v => Some v | None => HealthCheck_Interval other end
  /\ HealthCheck_Retries r =
    match HealthCheck_Retries target with
    | Some v => Some v | None => HealthCheck_Retries other end
  /\ HealthCheck_Timeout r =
    match HealthCheck_Timeout target with
    | Some v => Some v | None => HealthCheck_Timeout other end
  /\ HealthCheck_StartPeriod r =
    match HealthCheck_StartPeriod target with
    | Some v => Some v | None => HealthCheck_StartPeriod other end.
Proof.
  destruct target as [tc ti tr tt ts], other as [oc oi or ot os].
  destruct tc, ti, tr, tt, ts, oc, oi, or, ot, os; repeat split.
Qed.

(** The target sets two retries and no timeout, the default has five retries
    and a timeout of ten seconds. *)
Example applyIfNotSet_retries_timeout :
  let target := {| HealthCheck_Command := None; HealthCheck_Interval := None;
                   HealthCheck_Retries := Some 2; HealthCheck_Timeout := None;
                   HealthCheck_StartPeriod := None |} in
  let other := {| HealthCheck_Command := None; HealthCheck_Interval := None;
                  HealthCheck_Retries := Some 5;
                  HealthCheck_Timeout := Some (10 * time_Second);
                  HealthCheck_StartPeriod := None |} in
  let r := ContainerHealthCheck_applyIfNotSet target other in
  HealthCheck_Retries r = Some 2 /\ HealthCheck_Timeout r = Some (10 * time_Second).
Proof. split; reflexivity. Qed.

Lemma applyIfNotSet_default_all_set (hc : ContainerHealthCheck) :
  all_deref_set (ContainerHealthCheck_applyIfNotSet hc newDefaultContainerHealthCheck) = true.
Proof.
  destruct hc as [c i r t s]. destruct c, i, r, t, s; reflexivity.
Qed.

Lemma HealthCheckOpts_all_set (secs : Duration -> Z) (i : imageWithPortAndHealthcheck)
    (hc : ContainerHealthCheck) :
  ImageConfig_HealthCheck i = Some hc ->
  if all_deref_set hc
  then exists o, HealthCheckOpts secs i = Returns (Some o)
  else HealthCheckOpts secs i = Panics nilPointerDereference.
Proof.
  intros E. unfold HealthCheckOpts, all_deref_set. rewrite E.
  destruct hc as [c iv r t s]; simpl.
  destruct iv, r, t, s; simpl; eauto.
Qed.

(** C10. HealthCheckOpts returns nil exactly when the health check is nil.
    With a health check it dereferences Interval, Retries, Timeout and
    StartPeriod: it returns a value when all four are set and panics on a nil
    pointer otherwise.  Every backend manifest UnmarshalWorkload returns has
    passed the backfill of the defaults, so HealthCheckOpts returns on it. *)
Theorem HealthCheckOpts_total
    {ImageOverride template_Parser LoadBalancedWebService ScheduledJob : Type}
    (secs : Duration -> Z) (i : imageWithPortAndHealthcheck)
    (zero : ImageOverride) (lb : LoadBalancedWebService) (job : ScheduledJob)
    (yaml : @yaml_Unmarshal ImageOverride template_Parser LoadBalancedWebService ScheduledJob)
    (in_ : string) :
  (HealthCheckOpts secs i = Returns None <-> ImageConfig_HealthCheck i = None)
  /\ (forall hc, ImageConfig_HealthCheck i = Some hc ->
        if all_deref_set hc
        then exists o, HealthCheckOpts secs i = Returns (Some o)
        else HealthCheckOpts secs i = Panics nilPointerDereference)
  /\ (forall m, UnmarshalWorkload zero lb job yaml in_ = Ok (BackendService_manifest m) ->
        exists o, HealthCheckOpts secs
                    (BackendServiceConfig_ImageConfig (BackendService_Config m)) = Returns o).
Proof.
  split; [| split].
  - split.
    + intros H. destruct (ImageConfig_HealthCheck i) as [hc|] eqn:E; [| reflexivity].
      pose proof (HealthCheckOpts_all_set secs i hc E) as A.
      destruct (all_deref_set hc).
      * destruct A as [o A]. congruence.
      * congruence.
    + intros E. unfold HealthCheckOpts. now rewrite E.
  - intros hc E. exact (HealthCheckOpts_all_set secs i hc E).
  - intros m. unfold UnmarshalWorkload.
    destruct (Unmarshal_Workload yaml in_ _) as [am|]; [| discriminate].
    destruct (String.eqb (aws_StringValue (Workload_Type am)) LoadBalancedWebServiceType).
    { destruct (Unmarshal_LoadBalancedWebService yaml in_ lb); discriminate. }
    destruct (String.eqb (aws_StringValue (Workload_Type am)) BackendServiceType).
    2:{ destruct (String.eqb (aws_StringValue (Workload_Type am)) ScheduledJobType);
        [destruct (Unmarshal_ScheduledJob yaml in_ job) |]; discriminate. }
    destruct (Unmarshal_BackendService yaml in_ _) as [m0|]; [| discriminate].
    intros H. injection H as <-.
    destruct (BackendService_HealthCheck m0) as [hc|] eqn:E.
    + pose proof (HealthCheckOpts_all_set secs
                    (BackendServiceConfig_ImageConfig
                       (BackendService_Config
                          (BackendService_set_HealthCheck
                             (Some (ContainerHealthCheck_applyIfNotSet
                                      hc newDefaultContainerHealthCheck)) m0)))
                    _ eq_refl) as A.
      rewrite applyIfNotSet_default_all_set in A.
      destruct A as [o A]. eauto.
    + unfold HealthCheckOpts. unfold BackendService_HealthCheck in E. rewrite E. eauto.
Qed.

(** ** Port mapping *)

Lemma strings_Split_length (s : string) (sep : ascii) :
  length (strings_Split s sep) = S (strings_Count s sep).
Proof.
  induction s as [| ch r IH]; simpl; [reflexivity |].
  destruct (Ascii.eqb ch sep); simpl; [now rewrite IH |].
  destruct (strings_Split r sep); simpl in *; [discriminate | exact IH].
Qed.

Lemma strings_Split_none (s : string) (sep : ascii) :
  strings_Count s sep = 0%nat -> strings_Split s sep = [s].
Proof.
  induction s as [| ch r IH]; simpl; [reflexivity |].
  destruct (Ascii.eqb ch sep); [discriminate |].
  intros H. now rewrite (IH H).
Qed.

Lemma strings_Split_one (s : string) (sep : ascii) :
  strings_Count s sep = 1%nat ->
  exists p q, strings_Split s sep = [p; q]
              /\ s = (p +:+ String sep q)%string
              /\ strings_Count p sep = 0%nat /\ strings_Count q sep = 0%nat.
Proof.
  induction s as [| ch r IH]; simpl; [discriminate |].
  destruct (Ascii.eqb ch sep) eqn:E.
  - intros H. injection H as H. apply Ascii.eqb_eq in E. subst ch.
    exists EmptyString, r. rewrite (strings_Split_none r sep H). auto.
  - intros H. destruct (IH H) as (p & q & Hs & Hr & Hp & Hq).
    exists (String ch p), q. rewrite Hs. simpl. rewrite E, Hr. auto.
Qed.

(** C9. A sidecar port string without a slash is the port, with no
    protocol; with exactly one slash it is the port before the slash and the
    protocol after it; in any other shape parsing fails with the format
    error, and no values. *)
Theorem parsePortMapping_grammar (s : string) :
  match strings_Count s Separator with
  | 0%nat => parsePortMapping (Some s) = Ok (Some s, None)
  | 1%nat =>
      exists port protocol,
        s = (port +:+ "/" +:+ protocol)%string
        /\ strings_Count port Separator = 0%nat
        /\ strings_Count protocol Separator = 0%nat
        /\ parsePortMapping (Some s) = Ok (Some port, Some protocol)
  | _ => parsePortMapping (Some s) = Err (fmt_Errorf ("cannot parse port mapping from " +:+ s))
  end.
Proof.
  destruct (strings_Count s Separator) as [| [| n]] eqn:C.
  - unfold parsePortMapping. now rewrite (strings_Split_none s _ C).
  - destruct (strings_Split_one s _ C) as (p & q & Hs & Hr & Hp & Hq).
    exists p, q. repeat split; try assumption.
    unfold parsePortMapping. now rewrite Hs.
  - unfold parsePortMapping.
    pose proof (strings_Split_length s Separator) as L. rewrite C in L.
    now rewrite L.
Qed.

Example parsePortMapping_examples :
  parsePortMapping (Some "2000/udp"%string) = Ok (Some "2000"%string, Some "udp"%string)
  /\ parsePortMapping (Some "2000"%string) = Ok (Some "2000"%string, None)
  /\ parsePortMapping (Some "2000/udp/extra"%string)
     = Err (fmt_Errorf "cannot parse port mapping from 2000/udp/extra")
  /\ parsePortMapping None = Ok (Some "80"%string, None).
Proof. repeat split; reflexivity. Qed.

(** ** Scalar-or-structured decoding *)

(** The build field tries the structured form first: another error than a
    type error is returned as it is; a non-empty structured value is kept
    and the scalar is unset; otherwise the scalar is decoded, and its failure
    is the error of the build field. *)
Lemma BuildArgsOrString_UnmarshalYAML_order (b : BuildArgsOrString) (u : unmarshalFunc) :
  let structured := unmarshal_DockerBuildArgs u (BuildArgs b) in
  let scalar := unmarshal_string u (BuildString b) in
  let r := BuildArgsOrString_UnmarshalYAML b u in
  match returned_unless_TypeError (snd structured) with
  | Some e => snd r = Some e
  | None =>
      if DockerBuildArgs_isEmpty (fst structured)
      then r = ({| BuildString := fst scalar; BuildArgs := fst structured |},
                match snd scalar with Some _ => Some errUnmarshalBuildOpts | None => None end)
      else r = ({| BuildString := None; BuildArgs := fst structured |}, None)
  end.
Proof.
  cbv zeta. unfold BuildArgsOrString_UnmarshalYAML.
  destruct (unmarshal_DockerBuildArgs u (BuildArgs b)) as [args err]; simpl.
  destruct (returned_unless_TypeError err); [reflexivity |].
  destruct (DockerBuildArgs_isEmpty args); simpl; [| reflexivity].
  destruct (unmarshal_string u (BuildString b)) as [str [e|]]; reflexivity.
Qed.

(** A bare string for the build field decodes to the scalar form, although
    the structured attempt runs first. *)
Example BuildArgsOrString_bare_string :
  BuildArgsOrString_UnmarshalYAML BuildArgsOrString_zero (unmarshal_string_scalar "./Dockerfile")
  = ({| BuildString := Some "./Dockerfile"%string; BuildArgs := DockerBuildArgs_zero |}, None).
Proof. reflexivity. Qed.

(** The same order for the execute-command field, where an accepted
    structured value leaves the scalar as it was. *)
Lemma ExecuteCommand_UnmarshalYAML_order (e : ExecuteCommand) (u : unmarshalFunc) :
  let structured := unmarshal_ExecuteCommandConfig u (ExecuteCommand_Config e) in
  let scalar := unmarshal_bool u (ExecuteCommand_Enable e) in
  let r := ExecuteCommand_UnmarshalYAML e u in
  match returned_unless_TypeError (snd structured) with
  | Some err => snd r = Some err
  | None =>
      if ExecuteCommandConfig_IsEmpty (fst structured)
      then r = ({| ExecuteCommand_Enable := fst scalar;
                   ExecuteCommand_Config := fst structured |},
                match snd scalar with Some _ => Some errUnmarshalExec | None => None end)
      else r = ({| ExecuteCommand_Enable := ExecuteCommand_Enable e;
                   ExecuteCommand_Config := fst structured |}, None)
  end.
Proof.
  cbv zeta. unfold ExecuteCommand_UnmarshalYAML.
  destruct (unmarshal_ExecuteCommandConfig u (ExecuteCommand_Config e)) as [cfg err]; simpl.
  destruct (returned_unless_TypeError err); [reflexivity |].
  destruct (ExecuteCommandConfig_IsEmpty cfg); simpl; [| reflexivity].
  destruct (unmarshal_bool u (ExecuteCommand_Enable e)) as [en [e'|]]; reflexivity.
Qed.

(** C4. On the execute-command field of a default manifest ([Enable] set to
    false by the constructor), a document in the structured form
    [{enable: true}] is accepted without error and the scalar stays set:
    the result holds both the scalar false and the structured true.  The
    build field, on a document in its structured form, unsets its scalar. *)
Theorem ExecuteCommand_UnmarshalYAML_keeps_scalar :
  ExecuteCommand_UnmarshalYAML
    {| ExecuteCommand_Enable := Some false;
       ExecuteCommand_Config := {| ExecuteCommandConfig_Enable := None |} |}
    (unmarshal_enable_mapping true)
  = ({| ExecuteCommand_Enable := Some false;
        ExecuteCommand_Config := {| ExecuteCommandConfig_Enable := Some true |} |}, None)
  /\ (forall (b : BuildArgsOrString) (u : unmarshalFunc),
        returned_unless_TypeError (snd (unmarshal_DockerBuildArgs u (BuildArgs b))) = None ->
        DockerBuildArgs_isEmpty (fst (unmarshal_DockerBuildArgs u (BuildArgs b))) = false ->
        BuildString (fst (BuildArgsOrString_UnmarshalYAML b u)) = None).
Proof.
  split; [reflexivity |].
  intros b u H1 H2.
  pose proof (BuildArgsOrString_UnmarshalYAML_order b u) as O. cbv zeta in O.
  rewrite H1, H2 in O. now rewrite O.
Qed.

(** ** Workload dispatch *)

(** C8, as stated, fails: the header of the document decodes and declares a
    backend service, and UnmarshalWorkload still returns an error, because
    the backend manifest does not decode. *)
Lemma UnmarshalWorkload_dispatch_counterexample :
  ~ dispatch_as_specified
      (Unmarshal_Workload yaml_on_backend_with_bad_cpu "type: Backend Service" Workload_zero)
      (UnmarshalWorkload tt tt tt yaml_on_backend_with_bad_cpu "type: Backend Service").
Proof. vm_compute. discriminate. Qed.

(** C8, amended.  UnmarshalWorkload fails when the header does not decode.
    When the header declares a load balanced web service, a backend service
    or a scheduled job, it returns the manifest of that kind if the document
    decodes into that kind's defaults and fails otherwise.  When the header
    declares a type outside the four kinds it fails with
    ErrInvalidWorkloadType. *)
Theorem UnmarshalWorkload_dispatch
    {ImageOverride template_Parser LoadBalancedWebService ScheduledJob : Type}
    (zero : ImageOverride) (lb : LoadBalancedWebService) (job : ScheduledJob)
    (yaml : @yaml_Unmarshal ImageOverride template_Parser LoadBalancedWebService ScheduledJob)
    (in_ : string) :
  let r := UnmarshalWorkload zero lb job yaml in_ in
  match Unmarshal_Workload yaml in_ Workload_zero with
  | Err err => r = Err (fmt_Errorf_w "unmarshal to workload manifest" err)
  | Ok am =>
      let typeVal := aws_StringValue (Workload_Type am) in
      (typeVal = LoadBalancedWebServiceType ->
         match Unmarshal_LoadBalancedWebService yaml in_ lb with
         | Ok m => r = Ok (LoadBalancedWebService_manifest m)
         | Err err => r = Err (fmt_Errorf_w "unmarshal to load balanced web service" err)
         end)
      /\ (typeVal = BackendServiceType ->
         match Unmarshal_BackendService yaml in_ (newDefaultBackendService zero) with
         | Ok _ => exists m, r = Ok (BackendService_manifest m)
         | Err err => r = Err (fmt_Errorf_w "unmarshal to backend service" err)
         end)
      /\ (typeVal = ScheduledJobType ->
         match Unmarshal_ScheduledJob yaml in_ job with
         | Ok m => r = Ok (ScheduledJob_manifest m)
         | Err err => r = Err (fmt_Errorf_w "unmarshal to scheduled job" err)
         end)
      /\ (is_workload_kind typeVal = false -> r = Err (ErrInvalidWorkloadType typeVal))
  end.
Proof.
  cbv zeta. unfold UnmarshalWorkload, Workload_zero.
  destruct (Unmarshal_Workload yaml in_ _) as [am | err]; [| reflexivity].
  repeat split.
  - intros ->. simpl. destruct (Unmarshal_LoadBalancedWebService yaml in_ lb); reflexivity.
  - intros ->. simpl.
    destruct (Unmarshal_BackendService yaml in_ _); [eauto | reflexivity].
  - intros ->. simpl. destruct (Unmarshal_ScheduledJob yaml in_ job); reflexivity.
  - unfold is_workload_kind. intros H.
    destruct (String.eqb _ LoadBalancedWebServiceType); [discriminate |].
    destruct (String.eqb _ BackendServiceType); [discriminate |].
    destruct (String.eqb _ ScheduledJobType); [discriminate |].
    reflexivity.
Qed.

(** ** Environment overrides *)

Lemma mergo_ptr_nil {A} (elem : A -> A -> A) (dst : option A) : mergo.ptr elem dst None = dst.
Proof. reflexivity. Qed.

Lemma mergo_ptr_self {A} (elem : A -> A -> A) (p : option A) :
  (forall v, elem v v = v) -> mergo.ptr elem p p = p.
Proof. intros H. destruct p; simpl; [now rewrite H | reflexivity]. Qed.

Lemma mergo_basic_self {A} (isEmptyValue : A -> bool) (c : mergo.Config) (v : A) :
  mergo.basic isEmptyValue c v v = v.
Proof. unfold mergo.basic. now destruct (_ && _). Qed.

Lemma deepMerge_Count_empty (c : mergo.Config) (dst src : Count) :
  Count_IsEmpty src = true -> deepMerge_Count c dst src = dst.
Proof.
  destruct src as [v [r cpu mem req rt]], dst as [dv [dr dcpu dmem dreq drt]].
  unfold Count_IsEmpty, Autoscaling_IsEmpty; simpl.
  destruct v, r, cpu, mem, req, rt; simpl; try discriminate. reflexivity.
Qed.

Lemma deepMerge_Count_self (c : mergo.Config) (x : Count) : deepMerge_Count c x x = x.
Proof.
  destruct x as [v [r cpu mem req rt]].
  unfold deepMerge_Count, deepMerge_Autoscaling, deepMerge_int, deepMerge_string; simpl.
  rewrite !mergo_ptr_self by (intros; apply mergo_basic_self). reflexivity.
Qed.

(** The transformer cannot fail, and sets [Build] and [Location] as a pair. *)
Lemma transformImage_pair (dst src : Image) :
  exists r, transformImage dst src = Ok r
    /\ (Image_Build r, Image_Location r) =
         if negb (BuildArgsOrString_IsZero (Image_Build src)) || negb (IsNil (Image_Location src))
         then (Image_Build src, Image_Location src)
         else (Image_Build dst, Image_Location dst).
Proof.
  unfold transformImage, mergo_Merge_Image.
  destruct (negb (BuildArgsOrString_IsZero (Image_Build src))
            || negb (IsNil (Image_Location src))) eqn:E.
  - eexists; split; reflexivity.
  - eexists; split; [reflexivity |].
    apply orb_false_iff in E as [E1 E2].
    apply negb_false_iff in E1, E2.
    destruct src as [[bs [sc sd sa st scf]] sl slab sdep],
             dst as [[dbs [dc dd da dt dcf]] dl dlab ddep].
    unfold BuildArgsOrString_IsZero, DockerBuildArgs_isEmpty in E1. simpl in *.
    destruct bs, sc, sd, sa, st, scf, sl; simpl in *; try discriminate.
    destruct dbs, dc, dd, da, dt, dl; reflexivity.
Qed.

Lemma BackendService_ApplyEnv_override_count
    {ImageOverride template_Parser : Type}
    (f : mergo.Config -> ImageOverride -> ImageOverride -> ImageOverride)
    (s : @BackendService ImageOverride template_Parser) (envName : string)
    (o : @BackendServiceConfig ImageOverride) :
  lookupEnv (BackendService_Environments s) envName = Some (Some o) ->
  exists r, BackendService_ApplyEnv f s envName = Ok r
    /\ BackendService_Environments r = None
    /\ BackendService_Count r =
         deepMerge_Count WithOverride_WithOverwriteWithEmptyValue
           (if Count_IsEmpty (TaskConfig_Count (BackendServiceConfig_TaskConfig o))
            then BackendService_Count s
            else TaskConfig_Count (BackendServiceConfig_TaskConfig o))
           (TaskConfig_Count (BackendServiceConfig_TaskConfig o)).
Proof.
  intros H. unfold BackendService_ApplyEnv. rewrite H.
  unfold deepMerge_BackendService, deepMerge_BackendServiceConfig, deepMerge_Image_with.
  simpl.
  eexists; split; [reflexivity |]. split; [reflexivity |].
  unfold BackendService_Count. simpl.
  destruct (Count_IsEmpty _); reflexivity.
Qed.

Lemma WorkerService_ApplyEnv_override
    {ImageOverride template_Parser : Type}
    (f : mergo.Config -> ImageOverride -> ImageOverride -> ImageOverride)
    (s : @WorkerService ImageOverride template_Parser) (envName : string)
    (o : @WorkerServiceConfig ImageOverride) :
  lookupEnv (WorkerService_Environments s) envName = Some (Some o) ->
  exists r, WorkerService_ApplyEnv f s envName = Ok r
    /\ WorkerService_Environments r = None
    /\ WorkerService_Count r =
         deepMerge_Count WithOverride_WithOverwriteWithEmptyValue
           (if Count_IsEmpty (TaskConfig_Count (WorkerServiceConfig_TaskConfig o))
            then WorkerService_Count s
            else TaskConfig_Count (WorkerServiceConfig_TaskConfig o))
           (TaskConfig_Count (WorkerServiceConfig_TaskConfig o))
    /\ transformImage (WorkerService_Image s)
         (ImageWithHealthcheck_Image (WorkerServiceConfig_ImageConfig o))
       = Ok (WorkerService_Image r).
Proof.
  intros H. unfold WorkerService_ApplyEnv. rewrite H.
  unfold deepMerge_WorkerService, deepMerge_WorkerServiceConfig, deepMerge_Image_with.
  simpl.
  assert (I : WorkerService_Image
                (if negb (Count_IsEmpty (TaskConfig_Count (WorkerServiceConfig_TaskConfig o)))
                 then WorkerService_set_Count
                        (TaskConfig_Count (WorkerServiceConfig_TaskConfig o)) s
                 else s) = WorkerService_Image s)
    by (destruct (Count_IsEmpty _); reflexivity).
  unfold WorkerService_Image in I at 1. rewrite I.
  destruct (transformImage_pair (WorkerService_Image s)
              (ImageWithHealthcheck_Image (WorkerServiceConfig_ImageConfig o)))
    as (img & T & _).
  rewrite T. simpl.
  eexists; split; [reflexivity |]. split; [reflexivity |]. split; [| reflexivity].
  unfold WorkerService_Count. simpl.
  destruct (Count_IsEmpty _); reflexivity.
Qed.

Lemma BackendService_ApplyEnv_no_override
    {ImageOverride template_Parser : Type}
    (f : mergo.Config -> ImageOverride -> ImageOverride -> ImageOverride)
    (s : @BackendService ImageOverride template_Parser) (envName : string) :
  lookupEnv (BackendService_Environments s) envName = None
  \/ lookupEnv (BackendService_Environments s) envName = Some None ->
  BackendService_ApplyEnv f s envName = Ok s.
Proof. unfold BackendService_ApplyEnv. now intros [-> | ->]. Qed.

Lemma WorkerService_ApplyEnv_no_override
    {ImageOverride template_Parser : Type}
    (f : mergo.Config -> ImageOverride -> ImageOverride -> ImageOverride)
    (s : @WorkerService ImageOverride template_Parser) (envName : string) :
  lookupEnv (WorkerService_Environments s) envName = None
  \/ lookupEnv (WorkerService_Environments s) envName = Some None ->
  WorkerService_ApplyEnv f s envName = Ok s.
Proof. unfold WorkerService_ApplyEnv. now intros [-> | ->]. Qed.

(** C1, as stated, fails: for an environment registered without overrides
    (backend, "test") and for one that is not registered (worker, "dev"),
    ApplyEnv returns the manifest with its environments, not with the
    environments cleared. *)
Lemma ApplyEnv_identity_counterexample :
  BackendService_ApplyEnv keep_ImageOverride backend_example "test"
    <> Ok (BackendService_set_Environments None backend_example)
  /\ WorkerService_ApplyEnv keep_ImageOverride worker_example "dev"
    <> Ok (WorkerService_set_Environments None worker_example).
Proof.
  split.
  - rewrite BackendService_ApplyEnv_no_override by (right; reflexivity).
    intros H. injection H as H. discriminate H.
  - rewrite WorkerService_ApplyEnv_no_override by (left; reflexivity).
    intros H. injection H as H. discriminate H.
Qed.

(** C1, amended.  When the manifest has no entry for the environment, or the
    entry is nil, ApplyEnv succeeds and returns the manifest itself: every
    field, the environments map included, is the one of [s]. *)
Theorem ApplyEnv_identity
    {ImageOverride template_Parser : Type}
    (f : mergo.Config -> ImageOverride -> ImageOverride -> ImageOverride)
    (b : @BackendService ImageOverride template_Parser)
    (w : @WorkerService ImageOverride template_Parser) (envName : string) :
  (lookupEnv (BackendService_Environments b) envName = None
   \/ lookupEnv (BackendService_Environments b) envName = Some None ->
   BackendService_ApplyEnv f b envName = Ok b)
  /\ (lookupEnv (WorkerService_Environments w) envName = None
      \/ lookupEnv (WorkerService_Environments w) envName = Some None ->
      WorkerService_ApplyEnv f w envName = Ok w).
Proof.
  split.
  - apply BackendService_ApplyEnv_no_override.
  - apply WorkerService_ApplyEnv_no_override.
Qed.

(** C2. When the environment has an override: if the override's count is
    empty, the resolved manifest has the count of the base; if it is not
    empty, the resolved manifest has the override's count, whole. *)
Theorem ApplyEnv_count
    {ImageOverride template_Parser : Type}
    (f : mergo.Config -> ImageOverride -> ImageOverride -> ImageOverride)
    (b : @BackendService ImageOverride template_Parser)
    (w : @WorkerService ImageOverride template_Parser) (envName : string) :
  (forall o, lookupEnv (BackendService_Environments b) envName = Some (Some o) ->
     exists r, BackendService_ApplyEnv f b envName = Ok r
       /\ BackendService_Count r =
            if Count_IsEmpty (TaskConfig_Count (BackendServiceConfig_TaskConfig o))
            then BackendService_Count b
            else TaskConfig_Count (BackendServiceConfig_TaskConfig o))
  /\ (forall o, lookupEnv (WorkerService_Environments w) envName = Some (Some o) ->
     exists r, WorkerService_ApplyEnv f w envName = Ok r
       /\ WorkerService_Count r =
            if Count_IsEmpty (TaskConfig_Count (WorkerServiceConfig_TaskConfig o))
            then WorkerService_Count w
            else TaskConfig_Count (WorkerServiceConfig_TaskConfig o)).
Proof.
  split; intros o H.
  - destruct (BackendService_ApplyEnv_override_count f b envName o H) as (r & E & _ & C).
    exists r. split; [exact E |]. rewrite C.
    destruct (Count_IsEmpty _) eqn:Em.
    + now apply deepMerge_Count_empty.
    + apply deepMerge_Count_self.
  - destruct (WorkerService_ApplyEnv_override f w envName o H) as (r & E & _ & C & _).
    exists r. split; [exact E |]. rewrite C.
    destruct (Count_IsEmpty _) eqn:Em.
    + now apply deepMerge_Count_empty.
    + apply deepMerge_Count_self.
Qed.

(** The worker service resolves [Build] and [Location] as one unit: both are
    the override's when the override sets either, both are the base's when
    it sets neither. *)
Lemma WorkerService_ApplyEnv_image_pair
    {ImageOverride template_Parser : Type}
    (f : mergo.Config -> ImageOverride -> ImageOverride -> ImageOverride)
    (w : @WorkerService ImageOverride template_Parser) (envName : string)
    (o : @WorkerServiceConfig ImageOverride) :
  lookupEnv (WorkerService_Environments w) envName = Some (Some o) ->
  let src := ImageWithHealthcheck_Image (WorkerServiceConfig_ImageConfig o) in
  exists r, WorkerService_ApplyEnv f w envName = Ok r
    /\ (Image_Build (WorkerService_Image r), Image_Location (WorkerService_Image r)) =
         if negb (BuildArgsOrString_IsZero (Image_Build src)) || negb (IsNil (Image_Location src))
         then (Image_Build src, Image_Location src)
         else (Image_Build (WorkerService_Image w), Image_Location (WorkerService_Image w)).
Proof.
  intros H src.
  destruct (WorkerService_ApplyEnv_override f w envName o H) as (r & E & _ & _ & T).
  exists r. split; [exact E |].
  destruct (transformImage_pair (WorkerService_Image w) src) as (img & T' & P).
  fold src in T. rewrite T in T'. injection T' as <-. exact P.
Qed.

(** C3.  The backend service merges without the image transformer.  On a
    base built from ./Dockerfile and an override that sets only the
    location, the resolved image keeps the build of the base next to the
    location of the override, and the build-required check rejects it; the
    worker service on the same input takes both fields from the override. *)
Theorem BackendService_ApplyEnv_stale_build :
  (exists r, BackendService_ApplyEnv keep_ImageOverride backend_example "prod-iad" = Ok r
     /\ Image_Build (BackendService_Image r) = Image_Build (image_built_from "./Dockerfile")
     /\ Image_Location (BackendService_Image r) = Some "env-override location"%string
     /\ BackendService_BuildRequired r = Err errImageSource)
  /\ (exists r, WorkerService_ApplyEnv keep_ImageOverride worker_example "prod-iad" = Ok r
     /\ Image_Build (WorkerService_Image r) = BuildArgsOrString_zero
     /\ Image_Location (WorkerService_Image r) = Some "env-override location"%string
     /\ WorkerService_BuildRequired r = Ok false).
Proof.
  split; eexists; (split; [vm_compute; reflexivity |]); repeat split.
Qed.

(** ** The theorems at concrete inputs *)

Lemma ApplyEnv_identity_witness :
  BackendService_ApplyEnv keep_ImageOverride backend_example "test" = Ok backend_example
  /\ WorkerService_ApplyEnv keep_ImageOverride worker_example "dev" = Ok worker_example.
Proof.
  split.
  - apply (proj1 (ApplyEnv_identity keep_ImageOverride backend_example worker_example "test")).
    right; reflexivity.
  - apply (proj2 (ApplyEnv_identity keep_ImageOverride backend_example worker_example "dev")).
    left; reflexivity.
Defined.

Lemma ApplyEnv_count_witness :
  (exists r, BackendService_ApplyEnv keep_ImageOverride backend_example "prod-iad" = Ok r
             /\ BackendService_Count r = autoscaling_count "1-10" 70)
  /\ (exists r, WorkerService_ApplyEnv keep_ImageOverride worker_example "staging" = Ok r
                /\ WorkerService_Count r = fixed_count 3).
Proof.
  split.
  - exact (proj1 (ApplyEnv_count keep_ImageOverride backend_example worker_example "prod-iad")
             (backend_config (image_located_at "env-override location")
                             (task_with None (autoscaling_count "1-10" 70)))
             eq_refl).
  - exact (proj2 (ApplyEnv_count keep_ImageOverride backend_example worker_example "staging")
             (worker_config Image_zero (task_with (Some 512) Count_zero))
             eq_refl).
Defined.

Lemma ExecuteCommand_UnmarshalYAML_keeps_scalar_witness :
  BuildString
    (fst (BuildArgsOrString_UnmarshalYAML
            {| BuildString := Some "Dockerfile"%string; BuildArgs := DockerBuildArgs_zero |}
            (unmarshal_context_mapping "./svc"))) = None.
Proof.
  apply (proj2 ExecuteCommand_UnmarshalYAML_keeps_scalar); reflexivity.
Defined.

Lemma UnmarshalWorkload_dispatch_witness :
  (exists m, UnmarshalWorkload tt tt tt yaml_on_backend_with_command "type: Backend Service"
             = Ok (BackendService_manifest m))
  /\ UnmarshalWorkload tt tt tt yaml_on_backend_with_bad_cpu "type: Backend Service"
     = Err (fmt_Errorf_w "unmarshal to backend service"
              (yaml_TypeError ["line 3: cannot unmarshal !!seq into int"%string]))
  /\ UnmarshalWorkload tt tt tt yaml_on_unknown_type "type: Lambda"
     = Err (ErrInvalidWorkloadType "Lambda").
Proof.
  split; [| split].
  - exact (proj1 (proj2 (UnmarshalWorkload_dispatch tt tt tt yaml_on_backend_with_command
                           "type: Backend Service")) eq_refl).
  - exact (proj1 (proj2 (UnmarshalWorkload_dispatch tt tt tt yaml_on_backend_with_bad_cpu
                           "type: Backend Service")) eq_refl).
  - exact (proj2 (proj2 (proj2 (UnmarshalWorkload_dispatch tt tt tt yaml_on_unknown_type
                                  "type: Lambda"))) eq_refl).
Defined.

Lemma HealthCheckOpts_total_witness :
  (exists o, HealthCheckOpts whole_seconds
               {| ServiceImageWithPort :=
                    {| ImageWithPort_Image := Image_zero; ImageWithPort_Port := None |};
                  ImageConfig_HealthCheck := Some newDefaultContainerHealthCheck |}
             = Returns (Some o))
  /\ (exists m o,
        UnmarshalWorkload tt tt tt yaml_on_backend_with_command "type: Backend Service"
        = Ok (BackendService_manifest m)
        /\ HealthCheckOpts whole_seconds
             (BackendServiceConfig_ImageConfig (BackendService_Config m)) = Returns o).
Proof.
  split.
  - exact (proj1 (proj2 (HealthCheckOpts_total (ImageOverride := unit) (template_Parser := unit)
                           whole_seconds
                           {| ServiceImageWithPort :=
                                {| ImageWithPort_Image := Image_zero;
                                   ImageWithPort_Port := None |};
                              ImageConfig_HealthCheck := Some newDefaultContainerHealthCheck |}
                           tt tt tt yaml_on_backend_with_command "type: Backend Service"))
             newDefaultContainerHealthCheck eq_refl).
  - eexists.
    destruct (proj2 (proj2 (HealthCheckOpts_total (ImageOverride := unit)
                              (template_Parser := unit) whole_seconds
                              {| ServiceImageWithPort :=
                                   {| ImageWithPort_Image := Image_zero;
                                      ImageWithPort_Port := None |};
                                 ImageConfig_HealthCheck := None |}
                              tt tt tt yaml_on_backend_with_command "type: Backend Service"))
                _ eq_refl) as [o H].
    exists o. split; [reflexivity | exact H].
Defined.

(** * Further properties *)

(** ** Health check cascades *)

Lemma applyIfNotSet_fields (target other : ContainerHealthCheck) :
  ContainerHealthCheck_applyIfNotSet target other =
    {| HealthCheck_Command := first_set (HealthCheck_Command target) (HealthCheck_Command other);
       HealthCheck_Interval :=
         first_set (HealthCheck_Interval target) (HealthCheck_Interval other);
       HealthCheck_Retries := first_set (HealthCheck_Retries target) (HealthCheck_Retries other);
       HealthCheck_Timeout := first_set (HealthCheck_Timeout target) (HealthCheck_Timeout other);
       HealthCheck_StartPeriod :=
         first_set (HealthCheck_StartPeriod target) (HealthCheck_StartPeriod other) |}.
Proof.
  destruct target as [tc ti tr tt ts], other as [oc oi or ot os].
  destruct tc, ti, tr, tt, ts, oc, oi, or, ot, os; reflexivity.
Qed.

Lemma apply_fields (hc other : ContainerHealthCheck) :
  ContainerHealthCheck_apply hc other =
    {| HealthCheck_Command := first_set (HealthCheck_Command other) (HealthCheck_Command hc);
       HealthCheck_Interval := first_set (HealthCheck_Interval other) (HealthCheck_Interval hc);
       HealthCheck_Retries := first_set (HealthCheck_Retries other) (HealthCheck_Retries hc);
       HealthCheck_Timeout := first_set (HealthCheck_Timeout other) (HealthCheck_Timeout hc);
       HealthCheck_StartPeriod :=
         first_set (HealthCheck_StartPeriod other) (HealthCheck_StartPeriod hc) |}.
Proof.
  destruct hc as [tc ti tr tt ts], other as [oc oi or ot os].
  destruct tc, ti, tr, tt, ts, oc, oi, or, ot, os; reflexivity.
Qed.

Lemma first_set_assoc {A} (a b c : option A) :
  first_set (first_set a b) c = first_set a (first_set b c).
Proof. now destruct a. Qed.

Lemma first_set_absorb {A} (a b : option A) : first_set (first_set a b) b = first_set a b.
Proof. now destruct a, b. Qed.

(** X1. [apply] and [applyIfNotSet] are one operation read from its two
    sides: overriding [hc] with [other] gives the health check that filling
    the unset fields of [other] from [hc] gives. *)
Theorem apply_is_applyIfNotSet_flipped (hc other : ContainerHealthCheck) :
  ContainerHealthCheck_apply hc other = ContainerHealthCheck_applyIfNotSet other hc.
Proof. now rewrite apply_fields, applyIfNotSet_fields. Qed.

(** X2. Defaults cascade: backfilling from [b] and then from [c] is
    backfilling from [b] already backfilled from [c]; backfilling twice from
    the same health check changes nothing more; and a health check with no
    field set is neutral on both sides. *)
Theorem applyIfNotSet_cascade (a b c : ContainerHealthCheck) :
  let unset := {| HealthCheck_Command := None; HealthCheck_Interval := None;
                  HealthCheck_Retries := None; HealthCheck_Timeout := None;
                  HealthCheck_StartPeriod := None |} in
  ContainerHealthCheck_applyIfNotSet (ContainerHealthCheck_applyIfNotSet a b) c
    = ContainerHealthCheck_applyIfNotSet a (ContainerHealthCheck_applyIfNotSet b c)
  /\ ContainerHealthCheck_applyIfNotSet (ContainerHealthCheck_applyIfNotSet a b) b
     = ContainerHealthCheck_applyIfNotSet a b
  /\ ContainerHealthCheck_applyIfNotSet a unset = a
  /\ ContainerHealthCheck_applyIfNotSet unset a = a.
Proof.
  cbv zeta. rewrite !applyIfNotSet_fields. simpl. repeat split.
  - f_equal; apply first_set_assoc.
  - f_equal; apply first_set_absorb.
  - destruct a as [ac ai ar at_ as_]; simpl. destruct ac, ai, ar, at_, as_; reflexivity.
  - now destruct a.
Qed.

(** ** Constructors *)

(** X3. NewBackendService has a health check exactly when the props carry
    one.  It is then the default health check overridden by the caller's:
    every field is set, the caller's fields win, and HealthCheckOpts returns
    on the new manifest for any seconds conversion. *)
Theorem NewBackendService_healthcheck
    {ImageOverride template_Parser : Type} (zero : ImageOverride) (new : template_Parser)
    (props : BackendServiceProps) (secs : Duration -> Z) :
  let svc := NewBackendService zero new props in
  (BackendService_HealthCheck svc = None <-> BackendServiceProps_HealthCheck props = None)
  /\ (forall hc, BackendServiceProps_HealthCheck props = Some hc ->
        exists r, BackendService_HealthCheck svc = Some r
          /\ r = ContainerHealthCheck_applyIfNotSet hc newDefaultContainerHealthCheck
          /\ all_fields_set r = true
          /\ exists o, HealthCheckOpts secs
                         (BackendServiceConfig_ImageConfig (BackendService_Config svc))
                       = Returns (Some o)).
Proof.
  cbv zeta. unfold NewBackendService, BackendService_HealthCheck. simpl.
  split.
  - destruct (BackendServiceProps_HealthCheck props); split; congruence.
  - intros hc ->. eexists. split; [reflexivity |].
    rewrite apply_fields, applyIfNotSet_fields.
    split; [reflexivity |].
    destruct hc as [c i r t s]. unfold HealthCheckOpts. simpl.
    split; [destruct c, i, r, t, s; reflexivity |].
    destruct i, r, t, s; simpl; eauto.
Qed.

(** X4. Whether a freshly constructed backend service must be built is
    decided by the props alone: a Dockerfile without an image requires a
    build, an image without a Dockerfile does not, and both or neither is the
    image-source error. *)
Theorem NewBackendService_BuildRequired
    {ImageOverride template_Parser : Type} (zero : ImageOverride) (new : template_Parser)
    (props : BackendServiceProps) :
  let wp := BackendServiceProps_WorkloadProps props in
  BackendService_BuildRequired (NewBackendService zero new props)
  = image_source_table (negb (String.eqb (WorkloadProps_Dockerfile wp) ""))
                       (negb (String.eqb (WorkloadProps_Image wp) "")).
Proof.
  cbv zeta. unfold BackendService_BuildRequired, NewBackendService, requiresBuild,
    BackendService_Image, BuildArgsOrString_isEmpty, DockerBuildArgs_isEmpty, stringP. simpl.
  destruct (String.eqb (WorkloadProps_Dockerfile _) ""), (String.eqb (WorkloadProps_Image _) "");
    reflexivity.
Qed.

(** X5. NewWorkerService returns (the write through the Subscribe pointer
    of the defaults cannot panic); the new manifest has the caller's health
    check as given, with no defaults filled in, an empty name as nil, and its
    build-required check is decided by the props as for the backend. *)
Theorem NewWorkerService_returns
    {ImageOverride template_Parser : Type} (zero : ImageOverride) (new : template_Parser)
    (props : WorkerServiceProps) :
  let wp := WorkerServiceProps_WorkloadProps props in
  exists svc, NewWorkerService zero new props = Returns svc
    /\ ImageWithHealthcheck_HealthCheck (WorkerServiceConfig_ImageConfig (WorkerService_Config svc))
       = WorkerServiceProps_HealthCheck props
    /\ Workload_Name (WorkerService_Workload svc) = stringP (WorkloadProps_Name wp)
    /\ WorkerService_Environments svc = None
    /\ WorkerService_BuildRequired svc
       = image_source_table (negb (String.eqb (WorkloadProps_Dockerfile wp) ""))
                            (negb (String.eqb (WorkloadProps_Image wp) "")).
Proof.
  cbv zeta. unfold NewWorkerService. simpl. eexists. split; [reflexivity |].
  repeat split.
  unfold WorkerService_BuildRequired, requiresBuild, WorkerService_Image,
    BuildArgsOrString_isEmpty, DockerBuildArgs_isEmpty, stringP. simpl.
  destruct (String.eqb (WorkloadProps_Dockerfile _) ""), (String.eqb (WorkloadProps_Image _) "");
    reflexivity.
Qed.

(** ** Decoding a workload *)

(** X6. For a backend document UnmarshalWorkload returns the decoded
    manifest with nothing but its health check changed: no health check is
    added where the document has none, and a health check of the document
    keeps the fields it sets and takes the others from the default, so that
    all five are set. *)
Theorem UnmarshalWorkload_backend_backfill
    {ImageOverride template_Parser LoadBalancedWebService ScheduledJob : Type}
    (zero : ImageOverride) (lb : LoadBalancedWebService) (job : ScheduledJob)
    (yaml : @yaml_Unmarshal ImageOverride template_Parser LoadBalancedWebService ScheduledJob)
    (in_ : string) (am : Workload) (m0 : BackendService) :
  Unmarshal_Workload yaml in_ Workload_zero = Ok am ->
  aws_StringValue (Workload_Type am) = BackendServiceType ->
  Unmarshal_BackendService yaml in_ (newDefaultBackendService zero) = Ok m0 ->
  exists m, UnmarshalWorkload zero lb job yaml in_ = Ok (BackendService_manifest m)
    /\ (forall v, BackendService_set_HealthCheck v m = BackendService_set_HealthCheck v m0)
    /\ BackendService_HealthCheck m
       = match BackendService_HealthCheck m0 with
         | None => None
         | Some hc => Some (ContainerHealthCheck_applyIfNotSet hc newDefaultContainerHealthCheck)
         end
    /\ match BackendService_HealthCheck m with
       | None => True
       | Some r => all_fields_set r = true
       end.
Proof.
  intros Hb Ht Hm. unfold UnmarshalWorkload. unfold Workload_zero in Hb. rewrite Hb, Ht, Hm.
  simpl. eexists. split; [reflexivity |].
  destruct (BackendService_HealthCheck m0) as [hc|] eqn:E.
  - split; [reflexivity |]. split; [reflexivity |].
    unfold BackendService_HealthCheck; simpl.
    rewrite applyIfNotSet_fields. destruct hc as [c i r t s].
    destruct c, i, r, t, s; reflexivity.
  - split; [reflexivity |]. split; [exact E |]. now rewrite E.
Qed.

(** X7. UnmarshalWorkload never returns a manifest of another kind than
    the declared one: a returned manifest comes from a header that decoded,
    whose type is the type of that manifest's kind, and, for the web service
    and the job, is exactly what the decoder produced from the defaults. *)
Theorem UnmarshalWorkload_kind_sound
    {ImageOverride template_Parser LoadBalancedWebService ScheduledJob : Type}
    (zero : ImageOverride) (lb : LoadBalancedWebService) (job : ScheduledJob)
    (yaml : @yaml_Unmarshal ImageOverride template_Parser LoadBalancedWebService ScheduledJob)
    (in_ : string) (w : WorkloadManifest) :
  UnmarshalWorkload zero lb job yaml in_ = Ok w ->
  exists am, Unmarshal_Workload yaml in_ Workload_zero = Ok am
    /\ match w with
       | LoadBalancedWebService_manifest m =>
           aws_StringValue (Workload_Type am) = LoadBalancedWebServiceType
           /\ Unmarshal_LoadBalancedWebService yaml in_ lb = Ok m
       | BackendService_manifest m =>
           aws_StringValue (Workload_Type am) = BackendServiceType
           /\ exists m0, Unmarshal_BackendService yaml in_ (newDefaultBackendService zero) = Ok m0
       | ScheduledJob_manifest m =>
           aws_StringValue (Workload_Type am) = ScheduledJobType
           /\ Unmarshal_ScheduledJob yaml in_ job = Ok m
       end.
Proof.
  unfold UnmarshalWorkload, Workload_zero.
  destruct (Unmarshal_Workload yaml in_ _) as [am|]; [| discriminate].
  intros H. exists am. split; [reflexivity |].
  destruct (String.eqb _ LoadBalancedWebServiceType) eqn:E1.
  { apply String.eqb_eq in E1.
    destruct (Unmarshal_LoadBalancedWebService yaml in_ lb); [| discriminate].
    injection H as <-. auto. }
  destruct (String.eqb _ BackendServiceType) eqn:E2.
  { apply String.eqb_eq in E2.
    destruct (Unmarshal_BackendService yaml in_ _) as [m0|]; [| discriminate].
    injection H as <-. eauto. }
  destruct (String.eqb _ ScheduledJobType) eqn:E3; [| discriminate].
  apply String.eqb_eq in E3.
  destruct (Unmarshal_ScheduledJob yaml in_ job); [| discriminate].
  injection H as <-. auto.
Qed.

(** ** Decoding the scalar-or-structured fields *)

(** X9. After the build field decoded without error at most one of its two
    forms is populated: the scalar is nil or the structured value is empty. *)
Theorem BuildArgsOrString_UnmarshalYAML_one_form (b : BuildArgsOrString) (u : unmarshalFunc) :
  snd (BuildArgsOrString_UnmarshalYAML b u) = None ->
  IsNil (BuildString (fst (BuildArgsOrString_UnmarshalYAML b u)))
  || DockerBuildArgs_isEmpty (BuildArgs (fst (BuildArgsOrString_UnmarshalYAML b u))) = true.
Proof.
  unfold BuildArgsOrString_UnmarshalYAML.
  destruct (unmarshal_DockerBuildArgs u (BuildArgs b)) as [args err]; simpl.
  destruct (returned_unless_TypeError err); [discriminate |].
  destruct (DockerBuildArgs_isEmpty args) eqn:E; simpl.
  - destruct (unmarshal_string u (BuildString b)) as [str [e|]]; simpl; [discriminate |].
    intros _. rewrite E. apply orb_true_r.
  - reflexivity.
Qed.

(** X10. A type error of the decoder never leaves UnmarshalYAML, for the
    build field or the execute-command field: an error they return is the
    error of the structured decode when that is not a type error, and the
    field's own union error otherwise. *)
Theorem UnmarshalYAML_no_type_error (b : BuildArgsOrString) (e : ExecuteCommand)
    (u : unmarshalFunc) (err : error) :
  (snd (BuildArgsOrString_UnmarshalYAML b u) = Some err ->
     (forall errors, err <> yaml_TypeError errors)
     /\ (err = errUnmarshalBuildOpts
         \/ snd (unmarshal_DockerBuildArgs u (BuildArgs b)) = Some err))
  /\ (snd (ExecuteCommand_UnmarshalYAML e u) = Some err ->
     (forall errors, err <> yaml_TypeError errors)
     /\ (err = errUnmarshalExec
         \/ snd (unmarshal_ExecuteCommandConfig u (ExecuteCommand_Config e)) = Some err)).
Proof.
  split.
  - unfold BuildArgsOrString_UnmarshalYAML.
    destruct (unmarshal_DockerBuildArgs u (BuildArgs b)) as [args [e1|]]; simpl.
    + destruct e1; simpl;
        try (intros H; injection H as <-; split; [discriminate | now right]).
      destruct (DockerBuildArgs_isEmpty args); simpl; [| discriminate].
      destruct (unmarshal_string u (BuildString b)) as [str [e2|]]; simpl; [| discriminate].
      intros H; injection H as <-. split; [discriminate | now left].
    + destruct (DockerBuildArgs_isEmpty args); simpl; [| discriminate].
      destruct (unmarshal_string u (BuildString b)) as [str [e2|]]; simpl; [| discriminate].
      intros H; injection H as <-. split; [discriminate | now left].
  - unfold ExecuteCommand_UnmarshalYAML.
    destruct (unmarshal_ExecuteCommandConfig u (ExecuteCommand_Config e)) as [cfg [e1|]]; simpl.
    + destruct e1; simpl;
        try (intros H; injection H as <-; split; [discriminate | now right]).
      destruct (ExecuteCommandConfig_IsEmpty cfg); simpl; [| discriminate].
      destruct (unmarshal_bool u (ExecuteCommand_Enable e)) as [en [e2|]]; simpl; [| discriminate].
      intros H; injection H as <-. split; [discriminate | now left].
    + destruct (ExecuteCommandConfig_IsEmpty cfg); simpl; [| discriminate].
      destruct (unmarshal_bool u (ExecuteCommand_Enable e)) as [en [e2|]]; simpl; [| discriminate].
      intros H; injection H as <-. split; [discriminate | now left].
Qed.

(** ** Build inputs *)

(** X11. BuildConfig takes the dockerfile from the structured form when it
    names one: the dockerfile of the result is then the root joined with that
    path, whatever the scalar build string is.  Otherwise the scalar build
    string stands for the dockerfile: the dockerfile of the result is the
    root joined with it, and the whole result is the one the same path gives
    in the structured form.  The dockerfile and the context of the result
    are never nil. *)
Theorem BuildConfig_dockerfile_source (i : Image) (root : string) :
  (forall d, DockerBuildArgs_Dockerfile (BuildArgs (Image_Build i)) = Some d ->
     String.eqb d "" = false ->
     DockerBuildArgs_Dockerfile (Image_BuildConfig i root) = Some (filepath_Join [root; d]))
  /\ (forall s, DockerBuildArgs_Dockerfile (BuildArgs (Image_Build i)) = None ->
        BuildString (Image_Build i) = Some s ->
        String.eqb s "" = false ->
        DockerBuildArgs_Dockerfile (Image_BuildConfig i root) = Some (filepath_Join [root; s]))
  /\ (forall d s, DockerBuildArgs_Dockerfile (BuildArgs (Image_Build i)) = Some d ->
        Image_BuildConfig (Image_set_BuildString s i) root = Image_BuildConfig i root)
  /\ (forall s, DockerBuildArgs_Dockerfile (BuildArgs (Image_Build i)) = None ->
        BuildString (Image_Build i) = Some s ->
        Image_BuildConfig (Image_set_Dockerfile (Some s) i) root = Image_BuildConfig i root)
  /\ IsNil (DockerBuildArgs_Dockerfile (Image_BuildConfig i root)) = false
  /\ IsNil (DockerBuildArgs_Context (Image_BuildConfig i root)) = false.
Proof.
  split; [| split; [| split; [| split; [| split]]]].
  - intros d H E. unfold Image_BuildConfig, Image_dockerfile. rewrite H, E. simpl.
    destruct (String.eqb (Image_context i) ""); reflexivity.
  - intros s H1 H2 E. unfold Image_BuildConfig, Image_dockerfile. rewrite H1, H2, E. simpl.
    destruct (String.eqb (Image_context i) ""); reflexivity.
  - intros d s H. unfold Image_BuildConfig, Image_dockerfile, Image_context, Image_args,
      Image_target, Image_cacheFrom. simpl. now rewrite H.
  - intros s H1 H2. unfold Image_BuildConfig, Image_dockerfile, Image_context, Image_args,
      Image_target, Image_cacheFrom. simpl. now rewrite H1, H2.
  - unfold Image_BuildConfig.
    destruct (negb _ && negb _), (negb _ && String.eqb _ _), (String.eqb _ _ && negb _);
      reflexivity.
  - unfold Image_BuildConfig.
    destruct (negb _ && negb _), (negb _ && String.eqb _ _), (String.eqb _ _ && negb _);
      reflexivity.
Qed.

Lemma requiresBuild_reads_source (i j : Image) :
  Image_Build i = Image_Build j -> Image_Location i = Image_Location j ->
  requiresBuild i = requiresBuild j.
Proof. unfold requiresBuild. now intros -> ->. Qed.

(** X12. The build-required check treats the two sources differently when
    they are empty strings: a scalar build string pointing to the empty
    string counts as no build, while a location pointing to the empty string
    counts as a location. *)
Theorem requiresBuild_empty_strings (i : Image) :
  (BuildString (Image_Build i) = Some ""%string ->
     requiresBuild i = requiresBuild (Image_set_BuildString None i))
  /\ (Image_Location i = Some ""%string ->
        requiresBuild i
        = if BuildArgsOrString_isEmpty (Image_Build i) then Ok false else Err errImageSource).
Proof.
  split.
  - intros H. unfold requiresBuild, BuildArgsOrString_isEmpty. simpl. now rewrite H.
  - intros H. unfold requiresBuild. rewrite H. simpl.
    now destruct (BuildArgsOrString_isEmpty (Image_Build i)).
Qed.

(** X13. stringP and aws.StringValue are inverse up to the empty string:
    reading back a stringP gives the string, stringP is nil exactly on the
    empty string, and a pointer read and boxed again is itself unless it
    points to the empty string, which becomes nil.  uint16P is nil exactly
    on zero. *)
Theorem stringP_StringValue (s : string) (p : option string) (n : Z) :
  aws_StringValue (stringP s) = s
  /\ IsNil (stringP s) = String.eqb s ""
  /\ stringP (aws_StringValue p)
     = match p with
       | Some v => if String.eqb v "" then None else Some v
       | None => None
       end
  /\ uint16P n = (if Z.eqb n 0 then None else Some n).
Proof.
  unfold stringP. repeat split.
  - destruct (String.eqb s "") eqn:E; [| reflexivity].
    apply String.eqb_eq in E. now subst.
  - now destruct (String.eqb s "").
  - now destruct p.
Qed.

(** ** Environment overrides, continued *)

(** X14. The worker service keeps the exactly-one-of rule of the image
    source through an override: the build-required check of the resolved
    manifest is that of the override's image when the override sets a build
    or a location, and that of the base otherwise. *)
Theorem WorkerService_ApplyEnv_BuildRequired
    {ImageOverride template_Parser : Type}
    (f : mergo.Config -> ImageOverride -> ImageOverride -> ImageOverride)
    (w : @WorkerService ImageOverride template_Parser) (envName : string)
    (o : @WorkerServiceConfig ImageOverride) :
  lookupEnv (WorkerService_Environments w) envName = Some (Some o) ->
  let src := ImageWithHealthcheck_Image (WorkerServiceConfig_ImageConfig o) in
  exists r, WorkerService_ApplyEnv f w envName = Ok r
    /\ WorkerService_BuildRequired r
       = if sets_image_source src then requiresBuild src else WorkerService_BuildRequired w.
Proof.
  intros H src.
  destruct (WorkerService_ApplyEnv_image_pair f w envName o H) as (r & E & P).
  exists r. split; [exact E |]. fold src in P. unfold sets_image_source.
  unfold WorkerService_BuildRequired.
  destruct (negb _ || negb _); injection P as P1 P2;
    now apply requiresBuild_reads_source.
Qed.

(** X15. ApplyEnv is one-shot.  Resolving the result again for the same
    environment returns the result; after an override has been merged the
    environments are gone and resolving the result for any environment
    returns it unchanged. *)
Theorem ApplyEnv_one_shot
    {ImageOverride template_Parser : Type}
    (f : mergo.Config -> ImageOverride -> ImageOverride -> ImageOverride)
    (b : @BackendService ImageOverride template_Parser)
    (w : @WorkerService ImageOverride template_Parser) (envName : string) :
  (forall r, BackendService_ApplyEnv f b envName = Ok r ->
     BackendService_ApplyEnv f r envName = Ok r
     /\ (forall o, lookupEnv (BackendService_Environments b) envName = Some (Some o) ->
           BackendService_Environments r = None
           /\ forall other, BackendService_ApplyEnv f r other = Ok r))
  /\ (forall r, WorkerService_ApplyEnv f w envName = Ok r ->
     WorkerService_ApplyEnv f r envName = Ok r
     /\ (forall o, lookupEnv (WorkerService_Environments w) envName = Some (Some o) ->
           WorkerService_Environments r = None
           /\ forall other, WorkerService_ApplyEnv f r other = Ok r)).
Proof.
  split; intros r H.
  - destruct (lookupEnv (BackendService_Environments b) envName) as [[o|]|] eqn:L.
    + destruct (BackendService_ApplyEnv_override_count f b envName o L) as (r' & E & N & _).
      rewrite E in H. injection H as <-.
      assert (A : forall other, BackendService_ApplyEnv f r' other = Ok r')
        by (intros other; apply BackendService_ApplyEnv_no_override; left; now rewrite N).
      split; [apply A |]. intros _ _. split; [exact N | exact A].
    + rewrite BackendService_ApplyEnv_no_override in H by now right.
      injection H as <-. split; [| discriminate].
      apply BackendService_ApplyEnv_no_override. now right.
    + rewrite BackendService_ApplyEnv_no_override in H by now left.
      injection H as <-. split; [| discriminate].
      apply BackendService_ApplyEnv_no_override. now left.
  - destruct (lookupEnv (WorkerService_Environments w) envName) as [[o|]|] eqn:L.
    + destruct (WorkerService_ApplyEnv_override f w envName o L) as (r' & E & N & _).
      rewrite E in H. injection H as <-.
      assert (A : forall other, WorkerService_ApplyEnv f r' other = Ok r')
        by (intros other; apply WorkerService_ApplyEnv_no_override; left; now rewrite N).
      split; [apply A |]. intros _ _. split; [exact N | exact A].
    + rewrite WorkerService_ApplyEnv_no_override in H by now right.
      injection H as <-. split; [| discriminate].
      apply WorkerService_ApplyEnv_no_override. now right.
    + rewrite WorkerService_ApplyEnv_no_override in H by now left.
      injection H as <-. split; [| discriminate].
      apply WorkerService_ApplyEnv_no_override. now left.
Qed.

(** X16. One call of ApplyEnv reads the environments map at the requested
    name only: with an override for the environment, the manifest the call
    returns is the same for any environments map that holds the same
    override under that name.  This is about the value one call returns;
    a later call on the same receiver meets the pointers and maps that an
    earlier merge has written through, which this does not cover. *)
Theorem ApplyEnv_other_entries
    {ImageOverride template_Parser : Type}
    (f : mergo.Config -> ImageOverride -> ImageOverride -> ImageOverride)
    (b : @BackendService ImageOverride template_Parser)
    (w : @WorkerService ImageOverride template_Parser) (envName : string) :
  (forall o envs, lookupEnv (BackendService_Environments b) envName = Some (Some o) ->
     lookupEnv envs envName = Some (Some o) ->
     BackendService_ApplyEnv f (BackendService_set_Environments envs b) envName
     = BackendService_ApplyEnv f b envName)
  /\ (forall o envs, lookupEnv (WorkerService_Environments w) envName = Some (Some o) ->
     lookupEnv envs envName = Some (Some o) ->
     WorkerService_ApplyEnv f (WorkerService_set_Environments envs w) envName
     = WorkerService_ApplyEnv f w envName).
Proof.
  split; intros o envs H1 H2.
  - unfold BackendService_ApplyEnv. simpl. rewrite H1, H2.
    unfold deepMerge_BackendService, deepMerge_BackendServiceConfig, deepMerge_Image_with.
    simpl. now destruct (Count_IsEmpty _).
  - unfold WorkerService_ApplyEnv. simpl. rewrite H1, H2.
    unfold deepMerge_WorkerService, deepMerge_WorkerServiceConfig, deepMerge_Image_with.
    simpl. destruct (Count_IsEmpty _); simpl;
      destruct (transformImage _ _); reflexivity.
Qed.

(** X17. ApplyEnv never changes the name and the type of the workload, nor
    its parser, whether or not the environment has an override. *)
Theorem ApplyEnv_keeps_workload
    {ImageOverride template_Parser : Type}
    (f : mergo.Config -> ImageOverride -> ImageOverride -> ImageOverride)
    (b : @BackendService ImageOverride template_Parser)
    (w : @WorkerService ImageOverride template_Parser) (envName : string) :
  (forall r, BackendService_ApplyEnv f b envName = Ok r ->
     BackendService_Workload r = BackendService_Workload b
     /\ BackendService_parser r = BackendService_parser b)
  /\ (forall r, WorkerService_ApplyEnv f w envName = Ok r ->
     WorkerService_Workload r = WorkerService_Workload w
     /\ WorkerService_parser r = WorkerService_parser w).
Proof.
  split; intros r.
  - unfold BackendService_ApplyEnv.
    destruct (lookupEnv _ envName) as [[o|]|]; try (intros H; injection H as <-; now split).
    unfold deepMerge_BackendService, deepMerge_BackendServiceConfig, deepMerge_Image_with.
    simpl. intros H; injection H as <-. simpl.
    destruct (Count_IsEmpty _); simpl; destruct (BackendService_Workload b); now split.
  - unfold WorkerService_ApplyEnv.
    destruct (lookupEnv _ envName) as [[o|]|]; try (intros H; injection H as <-; now split).
    unfold deepMerge_WorkerService, deepMerge_WorkerServiceConfig, deepMerge_Image_with.
    simpl.
    destruct (transformImage _ _); simpl; [| discriminate].
    intros H; injection H as <-. simpl.
    destruct (Count_IsEmpty _); simpl; destruct (WorkerService_Workload w); now split.
Qed.

(** ** Options for the templates *)

Lemma parsePortMapping_well_formed (p : option string) :
  port_well_formed p = true ->
  exists port protocol, parsePortMapping p = Ok (port, protocol).
Proof.
  destruct p as [s|]; simpl; [| eauto].
  destruct (strings_Count s Separator) as [| [| n]] eqn:C; simpl; [| | discriminate]; intros _.
  - rewrite (strings_Split_none s _ C). simpl. eauto.
  - destruct (strings_Split_one s _ C) as (a & b & Hs & _). rewrite Hs. simpl. eauto.
Qed.

Lemma parsePortMapping_ill_formed (s : string) :
  port_well_formed (Some s) = false ->
  parsePortMapping (Some s) = Err (fmt_Errorf ("cannot parse port mapping from " +:+ s)).
Proof.
  simpl. destruct (strings_Count s Separator) as [| [| n]] eqn:C; simpl; try discriminate.
  intros _. pose proof (strings_Split_length s Separator) as L. rewrite C in L. now rewrite L.
Qed.

Lemma Sidecar_Options_range_ok (entries : list (string * option SidecarConfig))
    (acc : option (list template_SidecarOpts)) :
  forallb entry_present entries = true ->
  forallb entry_well_formed entries = true ->
  exists l, Sidecar_Options_range entries acc = Returns (Ok l)
    /\ option_names l = option_names acc ++ map (fun e => Some (fst e)) entries
    /\ (entries = [] -> l = acc)
    /\ (entries <> [] -> l <> None).
Proof.
  revert acc. induction entries as [| [name [cfg|]] rest IH]; intros acc P W;
    cbn [forallb] in P, W.
  - exists acc. simpl. rewrite app_nil_r. repeat split; congruence.
  - apply andb_true_iff in P as [_ P]. apply andb_true_iff in W as [W0 W].
    unfold entry_well_formed in W0; simpl in W0.
    destruct (parsePortMapping_well_formed _ W0) as (port & protocol & E).
    cbn [Sidecar_Options_range]. rewrite E.
    destruct (IH (go_append acc
                    {| SidecarOpts_Name := Some name;
                       SidecarOpts_Image := SidecarConfig_Image cfg;
                       SidecarOpts_Port := port;
                       SidecarOpts_Protocol := protocol;
                       SidecarOpts_CredsParam := SidecarConfig_CredsParam cfg |}) P W)
      as (l & R & N & Hnil & Hne).
    exists l. split; [exact R |]. split.
    + rewrite N. unfold option_names, go_append. simpl.
      rewrite map_app. simpl. now rewrite <- app_assoc.
    + split; [discriminate |]. intros _.
      destruct rest; [rewrite Hnil by reflexivity; discriminate | apply Hne; discriminate].
  - apply andb_true_iff in P as [P0 _]. discriminate P0.
Qed.

Lemma Sidecar_Options_range_err (entries : list (string * option SidecarConfig))
    (acc : option (list template_SidecarOpts)) :
  forallb entry_present entries = true ->
  forallb entry_well_formed entries = false ->
  exists name cfg s,
    In (name, Some cfg) entries /\ SidecarConfig_Port cfg = Some s
    /\ port_well_formed (Some s) = false
    /\ Sidecar_Options_range entries acc
       = Returns (Err (fmt_Errorf ("cannot parse port mapping from " +:+ s))).
Proof.
  revert acc. induction entries as [| [name [cfg|]] rest IH]; intros acc P W;
    cbn [forallb] in P, W; [discriminate | |].
  2:{ apply andb_true_iff in P as [P0 _]. discriminate P0. }
  apply andb_true_iff in P as [_ P]. cbn [Sidecar_Options_range].
  destruct (entry_well_formed (name, Some cfg)) eqn:W0; simpl in W.
  - unfold entry_well_formed in W0; simpl in W0.
    destruct (parsePortMapping_well_formed _ W0) as (port & protocol & E). rewrite E.
    destruct (IH (go_append acc
                    {| SidecarOpts_Name := Some name;
                       SidecarOpts_Image := SidecarConfig_Image cfg;
                       SidecarOpts_Port := port;
                       SidecarOpts_Protocol := protocol;
                       SidecarOpts_CredsParam := SidecarConfig_CredsParam cfg |}) P W)
      as (n & c & s & I & Hp & Hw & R).
    exists n, c, s. repeat split; try assumption. now right.
  - unfold entry_well_formed in W0; simpl in W0.
    destruct (SidecarConfig_Port cfg) as [s|] eqn:Hp; [| discriminate].
    exists name, cfg, s. rewrite (parsePortMapping_ill_formed s W0).
    repeat split; try assumption. now left.
Qed.

(** X18. When every entry of the sidecars map holds a configuration, the
    sidecar options are all or nothing.  If every port is nil or has at most
    one slash, the call returns one option per sidecar, named after it, in
    the order of the iteration (and a nil slice only for no sidecars at
    all).  Otherwise it returns no options but the format error of a sidecar
    whose port has more than one slash. *)
Theorem Sidecar_Options_all_or_nothing (entries : list (string * option SidecarConfig)) :
  forallb entry_present entries = true ->
  if forallb entry_well_formed entries
  then exists l, Sidecar_Options entries = Returns (Ok l)
         /\ option_names l = map (fun e => Some (fst e)) entries
         /\ (l = None <-> entries = [])
  else exists name cfg s,
         In (name, Some cfg) entries /\ SidecarConfig_Port cfg = Some s
         /\ (2 <= strings_Count s Separator)%nat
         /\ Sidecar_Options entries
            = Returns (Err (fmt_Errorf ("cannot parse port mapping from " +:+ s))).
Proof.
  intros P. destruct (forallb entry_well_formed entries) eqn:W.
  - destruct (Sidecar_Options_range_ok entries None P W) as (l & R & N & Hnil & Hne).
    exists l. split; [exact R |]. split; [exact N |].
    split; [| intros E; now apply Hnil].
    intros ->. destruct entries; [reflexivity |].
    exfalso. apply Hne; [discriminate | reflexivity].
  - destruct (Sidecar_Options_range_err entries None P W) as (n & c & s & I & Hp & Hw & R).
    exists n, c, s. repeat split; try assumption.
    simpl in Hw. apply Nat.leb_gt in Hw. lia.
Qed.

Lemma forallb_Permutation {A} (f : A -> bool) (l1 l2 : list A) :
  l1 ≡ₚ l2 -> forallb f l1 = forallb f l2.
Proof.
  induction 1; simpl; try congruence.
  now destruct (f x), (f y).
Qed.

(** X19. Whether the sidecar options fail does not depend on the order in
    which the map is iterated: over a map without nil entries, any two
    iteration orders both fail or both succeed, and they fail exactly when
    the map holds a sidecar whose port has more than one slash. *)
Theorem Sidecar_Options_order_independent
    (m : gmap string (option SidecarConfig))
    (order1 order2 : list (string * option SidecarConfig)) :
  order1 ≡ₚ map_to_list m -> order2 ≡ₚ map_to_list m ->
  forallb entry_present (map_to_list m) = true ->
  returns_error (Sidecar_Options order1) = returns_error (Sidecar_Options order2)
  /\ (returns_error (Sidecar_Options order1) = true <->
      exists name cfg s, m !! name = Some (Some cfg) /\ SidecarConfig_Port cfg = Some s
                         /\ (2 <= strings_Count s Separator)%nat).
Proof.
  intros P1 P2 Hn.
  assert (Pres : forall order, order ≡ₚ map_to_list m -> forallb entry_present order = true).
  { intros order P. now rewrite (forallb_Permutation _ _ _ P). }
  assert (R : forall order, order ≡ₚ map_to_list m ->
                returns_error (Sidecar_Options order)
                = negb (forallb entry_well_formed (map_to_list m))).
  { intros order P.
    pose proof (Sidecar_Options_all_or_nothing order (Pres order P)) as S.
    rewrite <- (forallb_Permutation _ _ _ P).
    destruct (forallb entry_well_formed order).
    - destruct S as (l & -> & _). reflexivity.
    - destruct S as (n & c & s & _ & _ & _ & ->). reflexivity. }
  split; [now rewrite (R _ P1), (R _ P2) |].
  rewrite (R _ P1). rewrite negb_true_iff. split.
  - intros W.
    destruct (Sidecar_Options_range_err (map_to_list m) None (Pres _ (reflexivity _)) W)
      as (n & c & s & I & Hp & Hw & _).
    exists n, c, s. apply list_elem_of_In, elem_of_map_to_list in I.
    repeat split; try assumption. simpl in Hw. apply Nat.leb_gt in Hw. lia.
  - intros (n & c & s & L & Hp & Hc).
    destruct (forallb entry_well_formed (map_to_list m)) eqn:W; [| reflexivity].
    rewrite forallb_forall in W.
    apply elem_of_map_to_list, list_elem_of_In, W in L.
    unfold entry_well_formed in L; simpl in L. rewrite Hp in L. simpl in L.
    apply Nat.leb_le in L. lia.
Qed.

(** X20. The log options always carry an image and a metadata flag: the
    image is the configured one, or the Fluent Bit default when none is
    configured; the flag is the text "false" only when metadata is
    explicitly disabled, and "true" otherwise.  The config file, the
    destination and the secret options pass through. *)
Theorem Logging_logConfigOpts_defaults (lc : Logging) :
  let opts := Logging_logConfigOpts lc in
  LogConfigOpts_Image opts
    = Some (match Logging_Image lc with Some i => i | None => defaultFluentbitImage end)
  /\ LogConfigOpts_EnableMetadata opts
     = Some (match Logging_EnableMetadata lc with
             | Some false => "false"%string
             | _ => "true"%string
             end)
  /\ LogConfigOpts_ConfigFile opts = Logging_ConfigFile lc
  /\ LogConfigOpts_Destination opts = Logging_Destination lc
  /\ LogConfigOpts_SecretOptions opts = Logging_SecretOptions lc.
Proof.
  cbv zeta. unfold Logging_logConfigOpts, Logging_image, Logging_enableMetadata. simpl.
  destruct (Logging_Image lc), (Logging_EnableMetadata lc) as [[|]|]; repeat split.
Qed.

(** ** The further properties at concrete inputs *)

Lemma NewBackendService_healthcheck_witness :
  let props := {| BackendServiceProps_WorkloadProps :=
                    {| WorkloadProps_Name := "api"; WorkloadProps_Dockerfile := "./Dockerfile";
                       WorkloadProps_Image := "" |};
                  BackendServiceProps_Port := 8080;
                  BackendServiceProps_HealthCheck :=
                    Some {| HealthCheck_Command := None; HealthCheck_Interval := None;
                            HealthCheck_Retries := Some 5; HealthCheck_Timeout := None;
                            HealthCheck_StartPeriod := None |} |} in
  exists r, BackendService_HealthCheck (NewBackendService tt tt props) = Some r
            /\ HealthCheck_Retries r = Some 5
            /\ HealthCheck_Timeout r = Some (5 * time_Second).
Proof.
  intros props.
  destruct (proj2 (NewBackendService_healthcheck tt tt props whole_seconds) _ eq_refl)
    as (r & E & -> & _).
  exists (ContainerHealthCheck_applyIfNotSet
            {| HealthCheck_Command := None; HealthCheck_Interval := None;
               HealthCheck_Retries := Some 5; HealthCheck_Timeout := None;
               HealthCheck_StartPeriod := None |} newDefaultContainerHealthCheck).
  split; [exact E | split; reflexivity].
Defined.

Lemma UnmarshalWorkload_backend_backfill_witness :
  exists m, UnmarshalWorkload tt tt tt yaml_on_backend_with_command "type: Backend Service"
            = Ok (BackendService_manifest m)
    /\ match BackendService_HealthCheck m with
       | None => True
       | Some r => all_fields_set r = true
       end.
Proof.
  destruct (UnmarshalWorkload_backend_backfill tt tt tt yaml_on_backend_with_command
              "type: Backend Service" _ _ eq_refl eq_refl eq_refl) as (m & E & _ & _ & A).
  exists m. split; [exact E | exact A].
Defined.

Lemma UnmarshalWorkload_kind_sound_witness :
  exists am, Unmarshal_Workload yaml_on_backend_with_command "type: Backend Service" Workload_zero
             = Ok am
             /\ aws_StringValue (Workload_Type am) = BackendServiceType.
Proof.
  destruct (UnmarshalWorkload_kind_sound tt tt tt yaml_on_backend_with_command
              "type: Backend Service" _ eq_refl) as (am & E & T & _).
  exists am. split; [exact E | exact T].
Defined.

Lemma BuildArgsOrString_UnmarshalYAML_one_form_witness :
  let r := BuildArgsOrString_UnmarshalYAML
             {| BuildString := Some "Dockerfile"%string; BuildArgs := DockerBuildArgs_zero |}
             (unmarshal_context_mapping "./svc") in
  IsNil (BuildString (fst r)) || DockerBuildArgs_isEmpty (BuildArgs (fst r)) = true.
Proof.
  apply BuildArgsOrString_UnmarshalYAML_one_form. reflexivity.
Defined.

Lemma UnmarshalYAML_no_type_error_witness :
  (forall errors, errUnmarshalBuildOpts <> yaml_TypeError errors)
  /\ snd (ExecuteCommand_UnmarshalYAML
            {| ExecuteCommand_Enable := None;
               ExecuteCommand_Config := {| ExecuteCommandConfig_Enable := None |} |}
            (unmarshal_string_scalar "sometimes")) = Some errUnmarshalExec.
Proof.
  split.
  - exact (proj1 (proj1 (UnmarshalYAML_no_type_error BuildArgsOrString_zero
                           {| ExecuteCommand_Enable := None;
                              ExecuteCommand_Config := {| ExecuteCommandConfig_Enable := None |} |}
                           (unmarshal_enable_mapping true) errUnmarshalBuildOpts) eq_refl)).
  - destruct (proj2 (UnmarshalYAML_no_type_error BuildArgsOrString_zero
                       {| ExecuteCommand_Enable := None;
                          ExecuteCommand_Config := {| ExecuteCommandConfig_Enable := None |} |}
                       (unmarshal_string_scalar "sometimes") errUnmarshalExec) eq_refl) as [_ _].
    reflexivity.
Defined.

Lemma BuildConfig_dockerfile_source_witness :
  DockerBuildArgs_Dockerfile
    (Image_BuildConfig (Image_set_BuildString (Some "other/Dockerfile"%string)
                          (image_built_from "svc/Dockerfile")) "/ws")
  = Some "/ws/svc/Dockerfile"%string
  /\ DockerBuildArgs_Dockerfile
       (Image_BuildConfig (Image_set_BuildString (Some "svc/Dockerfile"%string) Image_zero) "/ws")
     = Some "/ws/svc/Dockerfile"%string
  /\ Image_BuildConfig (Image_set_BuildString (Some "other/Dockerfile"%string)
                          (image_built_from "svc/Dockerfile")) "/ws"
     = Image_BuildConfig (image_built_from "svc/Dockerfile") "/ws"
  /\ Image_BuildConfig (Image_set_Dockerfile (Some "svc/Dockerfile"%string)
                          (Image_set_BuildString (Some "svc/Dockerfile"%string) Image_zero)) "/ws"
     = Image_BuildConfig (Image_set_BuildString (Some "svc/Dockerfile"%string) Image_zero) "/ws".
Proof.
  split; [| split; [| split]].
  - exact (proj1 (BuildConfig_dockerfile_source
                    (Image_set_BuildString (Some "other/Dockerfile"%string)
                       (image_built_from "svc/Dockerfile")) "/ws")
             "svc/Dockerfile"%string eq_refl eq_refl).
  - exact (proj1 (proj2 (BuildConfig_dockerfile_source
                           (Image_set_BuildString (Some "svc/Dockerfile"%string) Image_zero)
                           "/ws")) "svc/Dockerfile"%string eq_refl eq_refl eq_refl).
  - exact (proj1 (proj2 (proj2 (BuildConfig_dockerfile_source
                                  (image_built_from "svc/Dockerfile") "/ws")))
             _ _ eq_refl).
  - exact (proj1 (proj2 (proj2 (proj2 (BuildConfig_dockerfile_source
                           (Image_set_BuildString (Some "svc/Dockerfile"%string) Image_zero)
                           "/ws")))) _ eq_refl eq_refl).
Defined.

Lemma requiresBuild_empty_strings_witness :
  requiresBuild (Image_set_BuildString (Some ""%string) (image_located_at "nginx"))
  = requiresBuild (image_located_at "nginx")
  /\ requiresBuild (image_located_at "") = Ok false.
Proof.
  split.
  - exact (proj1 (requiresBuild_empty_strings
                    (Image_set_BuildString (Some ""%string) (image_located_at "nginx")))
             eq_refl).
  - exact (proj2 (requiresBuild_empty_strings (image_located_at "")) eq_refl).
Defined.

Lemma WorkerService_ApplyEnv_BuildRequired_witness :
  exists r, WorkerService_ApplyEnv keep_ImageOverride worker_example "prod-iad" = Ok r
            /\ WorkerService_BuildRequired r = Ok false.
Proof.
  exact (WorkerService_ApplyEnv_BuildRequired keep_ImageOverride worker_example "prod-iad"
           (worker_config (image_located_at "env-override location")
                          (task_with None (autoscaling_count "1-10" 70)))
           eq_refl).
Defined.

Lemma ApplyEnv_one_shot_witness :
  exists r, BackendService_ApplyEnv keep_ImageOverride backend_example "prod-iad" = Ok r
            /\ BackendService_Environments r = None
            /\ BackendService_ApplyEnv keep_ImageOverride r "staging" = Ok r.
Proof.
  eexists. split; [vm_compute; reflexivity |].
  destruct (proj1 (ApplyEnv_one_shot keep_ImageOverride backend_example worker_example
                     "prod-iad") _ eq_refl) as [_ H].
  destruct (H _ eq_refl) as [N A].
  split; [exact N | exact (A "staging"%string)].
Defined.

Lemma ApplyEnv_other_entries_witness :
  BackendService_ApplyEnv keep_ImageOverride
    (BackendService_set_Environments
       (Some {[ "prod-iad"%string :=
                  Some (backend_config (image_located_at "env-override location")
                                       (task_with None (autoscaling_count "1-10" 70))) ]})
       backend_example) "prod-iad"
  = BackendService_ApplyEnv keep_ImageOverride backend_example "prod-iad".
Proof.
  exact (proj1 (ApplyEnv_other_entries keep_ImageOverride backend_example worker_example
                  "prod-iad")
           (backend_config (image_located_at "env-override location")
                           (task_with None (autoscaling_count "1-10" 70)))
           (Some {[ "prod-iad"%string :=
                      Some (backend_config (image_located_at "env-override location")
                                           (task_with None (autoscaling_count "1-10" 70))) ]})
           eq_refl eq_refl).
Defined.

Lemma ApplyEnv_keeps_workload_witness :
  exists r, WorkerService_ApplyEnv keep_ImageOverride worker_example "staging" = Ok r
            /\ WorkerService_Workload r = WorkerService_Workload worker_example.
Proof.
  eexists. split; [vm_compute; reflexivity |].
  exact (proj1 (proj2 (ApplyEnv_keeps_workload keep_ImageOverride backend_example
                         worker_example "staging") _ eq_refl)).
Defined.

Lemma Sidecar_Options_all_or_nothing_witness :
  (exists l, Sidecar_Options [("xray"%string, Some sidecar_xray);
                              ("nginx"%string, Some sidecar_nginx)] = Returns (Ok l)
             /\ option_names l = [Some "xray"%string; Some "nginx"%string])
  /\ (exists name cfg s,
        In (name, Some cfg) [("xray"%string, Some sidecar_xray);
                             ("bad"%string, Some sidecar_bad_port)]
        /\ SidecarConfig_Port cfg = Some s /\ (2 <= strings_Count s Separator)%nat
        /\ Sidecar_Options [("xray"%string, Some sidecar_xray);
                            ("bad"%string, Some sidecar_bad_port)]
           = Returns (Err (fmt_Errorf ("cannot parse port mapping from " +:+ s)))).
Proof.
  split.
  - destruct (Sidecar_Options_all_or_nothing
                [("xray"%string, Some sidecar_xray); ("nginx"%string, Some sidecar_nginx)]
                eq_refl) as (l & E & N & _).
    exists l. split; [exact E | exact N].
  - exact (Sidecar_Options_all_or_nothing
             [("xray"%string, Some sidecar_xray); ("bad"%string, Some sidecar_bad_port)]
             eq_refl).
Defined.

Lemma Sidecar_Options_order_independent_witness :
  returns_error (Sidecar_Options [("xray"%string, Some sidecar_xray);
                                  ("bad"%string, Some sidecar_bad_port)])
  = returns_error (Sidecar_Options [("bad"%string, Some sidecar_bad_port);
                                    ("xray"%string, Some sidecar_xray)]).
Proof.
  apply (Sidecar_Options_order_independent sidecars_example).
  - vm_compute. solve [reflexivity | apply perm_swap].
  - vm_compute. solve [reflexivity | apply perm_swap].
  - vm_compute. reflexivity.
Defined.
